(** * Model-load optimizer: the routing engine and its health client

    A shallow embedding of [router.ts] (class [ModelRouter]) and
    [ollama-client.ts] (class [OllamaClient]) and the properties of the
    routing policy proved over it.

    Conventions of the embedding.
    - A JavaScript [number] that carries a measurement, a hint, a time or a
      configuration value is an IEEE-754 binary64 value: Rocq's primitive
      [float].  [a > b] is [ltb b a], [a >= b] is [leb b a]; both are false
      as soon as one side is NaN, as in JavaScript.
    - The four statistics counters start at 0 and are only ever changed by
      [++]; they are modelled as [N] (the increment is exact on a binary64
      below 2^53).
    - [T | null], [T | undefined] and optional fields are [option T].
    - The object state of the two classes is threaded explicitly through a
      state monad [M]; everything the code obtains from outside (the clock,
      the HTTP backend, nvidia-smi) is read from a [Host]. *)

From Stdlib Require Import PrimFloat String List Bool Arith NArith Lia.
From Stdlib Require Import Ascii ZArith Floats DecimalString.
From Stdlib Require DecimalPos DecimalN.
Import ListNotations.
Open Scope string_scope.

(* ===================================================================== *)
(** * JavaScript operators used by the code *)

(** [a ?? d]: the left operand unless it is null or undefined. *)
Definition nullish {A : Type} (a : option A) (d : A) : A :=
  match a with Some x => x | None => d end.

(** [a ?? b] when [b] may itself be undefined. *)
Definition nullish_opt {A : Type} (a b : option A) : option A :=
  match a with Some x => Some x | None => b end.

(** Truthiness of a string: every string but the empty one. *)
Definition truthy (s : string) : bool :=
  match s with EmptyString => false | String _ _ => true end.

(** [a > b] and [a >= b] on numbers. *)
Definition js_gt (a b : float) : bool := PrimFloat.ltb b a.
Definition js_ge (a b : float) : bool := PrimFloat.leb b a.
Definition js_lt (a b : float) : bool := PrimFloat.ltb a b.

(* ===================================================================== *)
(** * ollama-client.ts: data *)

Record ModelDetails := {
  parent_model : option string;
  format : option string;
  family : option string;
  families : option (list string);
  parameter_size : option string;
  quantization_level : option string
}.

Record OllamaModel := {
  om_name : string;
  om_model : string;
  om_modified_at : string;
  om_size : float;
  om_digest : string;
  om_details : option ModelDetails
}.

Record OllamaRunningModel := {
  rm_name : string;
  rm_model : string;
  rm_size : float;
  rm_digest : string;
  rm_expires_at : string;
  rm_size_vram : float;
  rm_details : option ModelDetails
}.

(** [expiresAt] is a [Date] built from the backend's [expires_at] string;
    the embedding keeps the string it was built from. *)
Record ModelStatus := {
  ms_name : string;
  pulled : bool;
  loaded : bool;
  sizeBytes : float;
  vramBytes : float;
  expiresAt : option string;
  parameterSize : option string;
  quantization : option string;
  ms_family : option string
}.

Record OllamaHealth := {
  reachable : bool;
  version : option string;
  pulledModels : list OllamaModel;
  runningModels : list OllamaRunningModel;
  lastChecked : float
}.

(* ===================================================================== *)
(** * config.ts: data *)

Record PluginConfig := {
  ollamaHost : string;
  primaryModel : string;
  sidecarModel : string;
  fallbackModel : option string;
  keepAliveMinutes : float;
  gpuMemoryThreshold : float;
  healthCheckIntervalSec : float;
  preloadOnStart : bool;
  autoRoute : bool;
  dashboardEnabled : bool
}.

Definition DEFAULTS : PluginConfig := {|
  ollamaHost := "http://localhost:11434";
  primaryModel := "deepseek-coder-v2:16b";
  sidecarModel := "qwen2.5-coder:7b";
  fallbackModel := None;
  keepAliveMinutes := 30;
  gpuMemoryThreshold := 0x1.b333333333333p-1; (* the binary64 value of 0.85 *)
  healthCheckIntervalSec := 30;
  preloadOnStart := true;
  autoRoute := true;
  dashboardEnabled := true
|}.

(* ===================================================================== *)
(** * router.ts: data *)

Inductive Source := primary | sidecar | fallback.

Record RouteDecision := {
  model : string;
  reason : string;
  source : Source;
  d_gpuUtilization : option float;
  vramUsedMB : option float;
  vramTotalMB : option float;
  modelLoaded : bool;
  timestamp : float
}.

Record VramUsage := { usedMB : float; totalMB : float }.

Record RouterState := {
  lastDecision : option RouteDecision;
  primaryStatus : ModelStatus;
  sidecarStatus : ModelStatus;
  gpuUtilization : option float;
  vramUsage : option VramUsage;
  ollamaReachable : bool;
  lastHealthCheck : float;
  decisionsCount : N;
  primarySelections : N;
  sidecarSelections : N;
  fallbackSelections : N
}.

(** The argument of [selectModel]. *)
Record Context := {
  messageLength : option float;
  conversationDepth : option float;
  forceModel : option string
}.

(* ===================================================================== *)
(** * The host: what the engine reads from outside its own code *)

(** How one [fetch] ends: the promise rejects, the 10 s timer aborts it, or
    a response arrives with its [ok] flag and a body ([None] when reading
    the body as JSON of the expected shape throws). *)
Inductive FetchOutcome (T : Type) :=
| NetworkError
| TimedOut
| Response (ok : bool) (body : option T).
Arguments NetworkError {T}.
Arguments TimedOut {T}.
Arguments Response {T} ok body.

Inductive JsError := ErrNetwork | ErrAbort | ErrHttp | ErrBody.

Record VersionData := { vd_version : string }.
Record TagsData := { td_models : option (list OllamaModel) }.
Record PsData := { pd_models : option (list OllamaRunningModel) }.

(** Every observation of the outside world is indexed by the number of
    observations made before it, so that two reads of the clock or two
    polls of the backend may differ.  [toFixed0] is the runtime's
    [Number.prototype.toFixed(0)]. *)
Record Host := {
  dateNow : nat -> float;
  httpVersion : nat -> FetchOutcome VersionData;
  httpTags : nat -> FetchOutcome TagsData;
  httpPs : nat -> FetchOutcome PsData;
  getNvidiaGpuUtilization : nat -> option float;
  getNvidiaVramUsage : nat -> option VramUsage;
  toFixed0 : float -> string
}.

(** What the instrumented engine records: which operations ran and which
    requests left the process.  The trace is ghost state, newest first. *)
Inductive Event :=
| EvRefreshHealth
| EvCheckHealth
| EvFetchVersion
| EvFetchTags
| EvFetchPs
| EvNvidiaSmi.

Record Machine := {
  health : OllamaHealth;
  state : RouterState;
  tick : nat;
  trace : list Event
}.

(* ===================================================================== *)
(** * The state monad of the embedding *)

Definition M (A : Type) : Type := Machine -> A * Machine.

Definition ret {A : Type} (a : A) : M A := fun m => (a, m).

Definition bind {A B : Type} (c : M A) (k : A -> M B) : M B :=
  fun m => let r := c m in k (fst r) (snd r).

Declare Scope m_scope.
Delimit Scope m_scope with m.
Notation "x <- c ;; k" := (bind c (fun x => k))
  (at level 100, c at next level, right associativity) : m_scope.
Notation "c ;; k" := (bind c (fun _ => k))
  (at level 100, right associativity) : m_scope.
Open Scope m_scope.

Definition getState : M RouterState := fun m => (state m, m).
Definition getHealth : M OllamaHealth := fun m => (health m, m).

Definition putState (s : RouterState) : M unit := fun m =>
  (tt, {| health := health m; state := s; tick := tick m; trace := trace m |}).

Definition putHealth (h : OllamaHealth) : M unit := fun m =>
  (tt, {| health := h; state := state m; tick := tick m; trace := trace m |}).

Definition modifyState (f : RouterState -> RouterState) : M unit :=
  s <- getState ;; putState (f s).

(** One observation of the host. *)
Definition observe {A : Type} (f : nat -> A) : M A := fun m =>
  (f (tick m),
   {| health := health m; state := state m; tick := S (tick m); trace := trace m |}).

Definition emit (e : Event) : M unit := fun m =>
  (tt, {| health := health m; state := state m; tick := tick m; trace := e :: trace m |}).

(** A computation that may throw: [inl] is the exception. *)
Definition bindX {A B : Type} (c : M (JsError + A)) (k : A -> M (JsError + B))
  : M (JsError + B) :=
  r <- c ;; match r with inl e => ret (inl e) | inr a => k a end.

Notation "x <-! c ;; k" := (bindX c (fun x => k))
  (at level 100, c at next level, right associativity) : m_scope.

(* ===================================================================== *)
(** * ollama-client.ts: class OllamaClient *)

(** The field initialiser of [_health]. *)
Definition initialHealth : OllamaHealth := {|
  reachable := false;
  version := None;
  pulledModels := [];
  runningModels := [];
  lastChecked := 0
|}.

(** [fetchJson]'s verdict on the outcome of its [fetch]: it throws when the
    fetch rejects or is aborted, when [res.ok] is false, and when the body
    cannot be read. *)
Definition fetchJson_result {T : Type} (o : FetchOutcome T) : JsError + T :=
  match o with
  | NetworkError => inl ErrNetwork
  | TimedOut => inl ErrAbort
  | Response false _ => inl ErrHttp
  | Response true None => inl ErrBody
  | Response true (Some v) => inr v
  end.

Definition matchesPulled (modelName : string) (m : OllamaModel) : bool :=
  String.eqb (om_name m) modelName || String.eqb (om_model m) modelName.

Definition matchesRunning (modelName : string) (m : OllamaRunningModel) : bool :=
  String.eqb (rm_name m) modelName || String.eqb (rm_model m) modelName.

Definition isModelPulled (modelName : string) : M bool :=
  h <- getHealth ;; ret (existsb (matchesPulled modelName) (pulledModels h)).

Definition isModelLoaded (modelName : string) : M bool :=
  h <- getHealth ;; ret (existsb (matchesRunning modelName) (runningModels h)).

(** The object literal returned by [getModelStatus], from the cached
    snapshot [h]. *)
Definition modelStatusOf (h : OllamaHealth) (modelName : string) : ModelStatus :=
  let pulled_ := find (matchesPulled modelName) (pulledModels h) in
  let running := find (matchesRunning modelName) (runningModels h) in
  let details :=
    nullish_opt (match pulled_ with Some p => om_details p | None => None end)
                (match running with Some r => rm_details r | None => None end) in
  {| ms_name := modelName;
     pulled := match pulled_ with Some _ => true | None => false end;
     loaded := match running with Some _ => true | None => false end;
     sizeBytes :=
       nullish (nullish_opt (option_map om_size pulled_) (option_map rm_size running)) 0%float;
     vramBytes := nullish (option_map rm_size_vram running) 0%float;
     expiresAt :=
       match running with
       | Some r => if truthy (rm_expires_at r) then Some (rm_expires_at r) else None
       | None => None
       end;
     parameterSize := match details with Some d => parameter_size d | None => None end;
     quantization := match details with Some d => quantization_level d | None => None end;
     ms_family := match details with Some d => family d | None => None end |}.

Definition getModelStatus (modelName : string) : M ModelStatus :=
  h <- getHealth ;; ret (modelStatusOf h modelName).

Section Client.

Variable host : Host.

Definition Date_now : M float := observe (dateNow host).

(** [fetchJson] on each of the three endpoints [checkHealth] polls. *)
Definition fetchVersion : M (JsError + VersionData) :=
  emit EvFetchVersion ;; o <- observe (httpVersion host) ;; ret (fetchJson_result o).

Definition fetchTags : M (JsError + TagsData) :=
  emit EvFetchTags ;; o <- observe (httpTags host) ;; ret (fetchJson_result o).

Definition fetchPs : M (JsError + PsData) :=
  emit EvFetchPs ;; o <- observe (httpPs host) ;; ret (fetchJson_result o).

(** The body of the [try] block of [checkHealth]. *)
Definition checkHealth_try : M (JsError + unit) :=
  versionData <-! fetchVersion ;;
  tagsData <-! fetchTags ;;
  psData <-! fetchPs ;;
  now <- Date_now ;;
  putHealth {| reachable := true;
               version := Some (vd_version versionData);
               pulledModels := nullish (td_models tagsData) [];
               runningModels := nullish (pd_models psData) [];
               lastChecked := now |} ;;
  ret (inr tt).

(** The body of the [catch] block of [checkHealth]. *)
Definition checkHealth_catch : M unit :=
  h <- getHealth ;;
  now <- Date_now ;;
  putHealth {| reachable := false;
               version := None;
               pulledModels := pulledModels h;
               runningModels := [];
               lastChecked := now |}.

Definition checkHealth : M OllamaHealth :=
  emit EvCheckHealth ;;
  r <- checkHealth_try ;;
  match r with inr _ => ret tt | inl _ => checkHealth_catch end ;;
  getHealth.

End Client.

(* ===================================================================== *)
(** * router.ts: class ModelRouter *)

(** Assignments to single fields of [this.state]. *)
Definition set_lastDecision (d : RouteDecision) (s : RouterState) : RouterState :=
  {| lastDecision := Some d;
     primaryStatus := primaryStatus s; sidecarStatus := sidecarStatus s;
     gpuUtilization := gpuUtilization s; vramUsage := vramUsage s;
     ollamaReachable := ollamaReachable s; lastHealthCheck := lastHealthCheck s;
     decisionsCount := decisionsCount s; primarySelections := primarySelections s;
     sidecarSelections := sidecarSelections s;
     fallbackSelections := fallbackSelections s |}.

Definition set_primaryStatus (v : ModelStatus) (s : RouterState) : RouterState :=
  {| lastDecision := lastDecision s;
     primaryStatus := v; sidecarStatus := sidecarStatus s;
     gpuUtilization := gpuUtilization s; vramUsage := vramUsage s;
     ollamaReachable := ollamaReachable s; lastHealthCheck := lastHealthCheck s;
     decisionsCount := decisionsCount s; primarySelections := primarySelections s;
     sidecarSelections := sidecarSelections s;
     fallbackSelections := fallbackSelections s |}.

Definition set_sidecarStatus (v : ModelStatus) (s : RouterState) : RouterState :=
  {| lastDecision := lastDecision s;
     primaryStatus := primaryStatus s; sidecarStatus := v;
     gpuUtilization := gpuUtilization s; vramUsage := vramUsage s;
     ollamaReachable := ollamaReachable s; lastHealthCheck := lastHealthCheck s;
     decisionsCount := decisionsCount s; primarySelections := primarySelections s;
     sidecarSelections := sidecarSelections s;
     fallbackSelections := fallbackSelections s |}.

Definition set_gpuUtilization (v : option float) (s : RouterState) : RouterState :=
  {| lastDecision := lastDecision s;
     primaryStatus := primaryStatus s; sidecarStatus := sidecarStatus s;
     gpuUtilization := v; vramUsage := vramUsage s;
     ollamaReachable := ollamaReachable s; lastHealthCheck := lastHealthCheck s;
     decisionsCount := decisionsCount s; primarySelections := primarySelections s;
     sidecarSelections := sidecarSelections s;
     fallbackSelections := fallbackSelections s |}.

Definition set_vramUsage (v : option VramUsage) (s : RouterState) : RouterState :=
  {| lastDecision := lastDecision s;
     primaryStatus := primaryStatus s; sidecarStatus := sidecarStatus s;
     gpuUtilization := gpuUtilization s; vramUsage := v;
     ollamaReachable := ollamaReachable s; lastHealthCheck := lastHealthCheck s;
     decisionsCount := decisionsCount s; primarySelections := primarySelections s;
     sidecarSelections := sidecarSelections s;
     fallbackSelections := fallbackSelections s |}.

Definition set_ollamaReachable (v : bool) (s : RouterState) : RouterState :=
  {| lastDecision := lastDecision s;
     primaryStatus := primaryStatus s; sidecarStatus := sidecarStatus s;
     gpuUtilization := gpuUtilization s; vramUsage := vramUsage s;
     ollamaReachable := v; lastHealthCheck := lastHealthCheck s;
     decisionsCount := decisionsCount s; primarySelections := primarySelections s;
     sidecarSelections := sidecarSelections s;
     fallbackSelections := fallbackSelections s |}.

Definition set_lastHealthCheck (v : float) (s : RouterState) : RouterState :=
  {| lastDecision := lastDecision s;
     primaryStatus := primaryStatus s; sidecarStatus := sidecarStatus s;
     gpuUtilization := gpuUtilization s; vramUsage := vramUsage s;
     ollamaReachable := ollamaReachable s; lastHealthCheck := v;
     decisionsCount := decisionsCount s; primarySelections := primarySelections s;
     sidecarSelections := sidecarSelections s;
     fallbackSelections := fallbackSelections s |}.

(** [this.state.decisionsCount++] and its three siblings. *)
Definition incr_decisionsCount (s : RouterState) : RouterState :=
  {| lastDecision := lastDecision s;
     primaryStatus := primaryStatus s; sidecarStatus := sidecarStatus s;
     gpuUtilization := gpuUtilization s; vramUsage := vramUsage s;
     ollamaReachable := ollamaReachable s; lastHealthCheck := lastHealthCheck s;
     decisionsCount := decisionsCount s + 1; primarySelections := primarySelections s;
     sidecarSelections := sidecarSelections s;
     fallbackSelections := fallbackSelections s |}.

Definition incr_primarySelections (s : RouterState) : RouterState :=
  {| lastDecision := lastDecision s;
     primaryStatus := primaryStatus s; sidecarStatus := sidecarStatus s;
     gpuUtilization := gpuUtilization s; vramUsage := vramUsage s;
     ollamaReachable := ollamaReachable s; lastHealthCheck := lastHealthCheck s;
     decisionsCount := decisionsCount s; primarySelections := primarySelections s + 1;
     sidecarSelections := sidecarSelections s;
     fallbackSelections := fallbackSelections s |}.

Definition incr_sidecarSelections (s : RouterState) : RouterState :=
  {| lastDecision := lastDecision s;
     primaryStatus := primaryStatus s; sidecarStatus := sidecarStatus s;
     gpuUtilization := gpuUtilization s; vramUsage := vramUsage s;
     ollamaReachable := ollamaReachable s; lastHealthCheck := lastHealthCheck s;
     decisionsCount := decisionsCount s; primarySelections := primarySelections s;
     sidecarSelections := sidecarSelections s + 1;
     fallbackSelections := fallbackSelections s |}.

Definition incr_fallbackSelections (s : RouterState) : RouterState :=
  {| lastDecision := lastDecision s;
     primaryStatus := primaryStatus s; sidecarStatus := sidecarStatus s;
     gpuUtilization := gpuUtilization s; vramUsage := vramUsage s;
     ollamaReachable := ollamaReachable s; lastHealthCheck := lastHealthCheck s;
     decisionsCount := decisionsCount s; primarySelections := primarySelections s;
     sidecarSelections := sidecarSelections s;
     fallbackSelections := fallbackSelections s + 1 |}.

(** [context?.forceModel] as the condition of an [if]: the forced model
    when the context is given, the field is set and the string is truthy. *)
Definition forced (context : option Context) : option string :=
  match context with
  | Some c =>
      match forceModel c with
      | Some f => if truthy f then Some f else None
      | None => None
      end
  | None => None
  end.

Section Router.

Variable host : Host.
Variable config : PluginConfig.

(** The state the constructor builds. *)
Definition initialState : RouterState := {|
  lastDecision := None;
  primaryStatus := {| ms_name := primaryModel config; pulled := false; loaded := false;
                      sizeBytes := 0; vramBytes := 0; expiresAt := None;
                      parameterSize := None; quantization := None; ms_family := None |};
  sidecarStatus := {| ms_name := sidecarModel config; pulled := false; loaded := false;
                      sizeBytes := 0; vramBytes := 0; expiresAt := None;
                      parameterSize := None; quantization := None; ms_family := None |};
  gpuUtilization := None;
  vramUsage := None;
  ollamaReachable := false;
  lastHealthCheck := 0;
  decisionsCount := 0;
  primarySelections := 0;
  sidecarSelections := 0;
  fallbackSelections := 0
|}.

Definition refreshHealth : M unit :=
  emit EvRefreshHealth ;;
  h <- checkHealth host ;;
  modifyState (set_ollamaReachable (reachable h)) ;;
  now <- Date_now host ;;
  modifyState (set_lastHealthCheck now) ;;
  p <- getModelStatus (primaryModel config) ;;
  modifyState (set_primaryStatus p) ;;
  s <- getModelStatus (sidecarModel config) ;;
  modifyState (set_sidecarStatus s) ;;
  emit EvNvidiaSmi ;;
  u <- observe (getNvidiaGpuUtilization host) ;;
  modifyState (set_gpuUtilization u) ;;
  emit EvNvidiaSmi ;;
  v <- observe (getNvidiaVramUsage host) ;;
  modifyState (set_vramUsage v).

Definition isGpuOverloaded (s : RouterState) : bool :=
  match vramUsage s with
  | None => false
  | Some v =>
      let ratio := (usedMB v / totalMB v)%float in
      js_ge ratio (gpuMemoryThreshold config)
  end.

Definition isSimpleRequest (context : option Context) : bool :=
  match context with
  | None => false
  | Some c =>
      let shortMessage := js_lt (nullish (messageLength c) 0%float) 200%float in
      let shallowConversation := js_lt (nullish (conversationDepth c) 0%float) 3%float in
      shortMessage && shallowConversation
  end.

Definition decidePrimary (reason_ : string) : M RouteDecision :=
  modifyState incr_decisionsCount ;;
  modifyState incr_primarySelections ;;
  s <- getState ;;
  now <- Date_now host ;;
  let decision := {|
    model := "ollama/" ++ primaryModel config;
    reason := reason_;
    source := primary;
    d_gpuUtilization := gpuUtilization s;
    vramUsedMB := option_map usedMB (vramUsage s);
    vramTotalMB := option_map totalMB (vramUsage s);
    modelLoaded := loaded (primaryStatus s);
    timestamp := now |} in
  modifyState (set_lastDecision decision) ;;
  ret decision.

Definition decideSidecar (reason_ : string) : M RouteDecision :=
  modifyState incr_decisionsCount ;;
  modifyState incr_sidecarSelections ;;
  s <- getState ;;
  now <- Date_now host ;;
  let decision := {|
    model := "ollama/" ++ sidecarModel config;
    reason := reason_;
    source := sidecar;
    d_gpuUtilization := gpuUtilization s;
    vramUsedMB := option_map usedMB (vramUsage s);
    vramTotalMB := option_map totalMB (vramUsage s);
    modelLoaded := loaded (sidecarStatus s);
    timestamp := now |} in
  modifyState (set_lastDecision decision) ;;
  ret decision.

Definition decideFallback (reason_ : string) : M RouteDecision :=
  modifyState incr_decisionsCount ;;
  modifyState incr_fallbackSelections ;;
  let model_ := nullish (fallbackModel config) "anthropic/claude-sonnet-4-5" in
  s <- getState ;;
  now <- Date_now host ;;
  let decision := {|
    model := model_;
    reason := reason_;
    source := fallback;
    d_gpuUtilization := gpuUtilization s;
    vramUsedMB := None;
    vramTotalMB := None;
    modelLoaded := false;
    timestamp := now |} in
  modifyState (set_lastDecision decision) ;;
  ret decision.

(** The forced-override block of [selectModel] (its first [if]). *)
Definition selectForced (forceModel_ : string) : M RouteDecision :=
  l <- isModelLoaded forceModel_ ;;
  now <- Date_now host ;;
  let decision := {|
    model := forceModel_;
    reason := "Forced model selection";
    source := primary;
    d_gpuUtilization := None;
    vramUsedMB := None;
    vramTotalMB := None;
    modelLoaded := l;
    timestamp := now |} in
  modifyState (set_lastDecision decision) ;;
  ret decision.

(** The test of the staleness guard, and the guard itself. *)
Definition isStale (now last : float) : bool :=
  js_gt (now - last)%float (healthCheckIntervalSec config * 1000 * 2)%float.

Definition ensureFresh : M unit :=
  now <- Date_now host ;;
  s <- getState ;;
  if isStale now (lastHealthCheck s) then refreshHealth else ret tt.

(** The decision logic of [selectModel] (its section "Decision Logic"). *)
Definition selectLocal (context : option Context) : M RouteDecision :=
  s <- getState ;;
  let primaryPulled := pulled (primaryStatus s) in
  let sidecarPulled := pulled (sidecarStatus s) in
  let primaryLoaded := loaded (primaryStatus s) in
  let sidecarLoaded := loaded (sidecarStatus s) in
  let gpuOverloaded := isGpuOverloaded s in
  let isSimple := isSimpleRequest context in
  if primaryPulled && primaryLoaded && negb gpuOverloaded then
    decidePrimary "Primary model loaded and GPU has capacity"
  else if primaryPulled && negb gpuOverloaded && negb isSimple then
    decidePrimary "Primary model available, loading for complex request"
  else if sidecarPulled && (gpuOverloaded || isSimple) then
    let reason_ :=
      if gpuOverloaded
      then "GPU VRAM above " ++ toFixed0 host (gpuMemoryThreshold config * 100)%float
           ++ "% - routing to CPU sidecar"
      else "Simple request routed to fast CPU sidecar" in
    decideSidecar reason_
  else if sidecarPulled && sidecarLoaded then
    decideSidecar "Sidecar already loaded - fast response path"
  else if primaryPulled then
    decidePrimary "Primary model available with partial GPU offload"
  else if sidecarPulled then
    decideSidecar "Only sidecar model available"
  else
    decideFallback "No local models available".

(** [selectModel] from the reachability test on: what runs once the
    staleness guard has been passed. *)
Definition selectRouted (context : option Context) : M RouteDecision :=
  s <- getState ;;
  if negb (ollamaReachable s) then decideFallback "Ollama is unreachable"
  else selectLocal context.

Definition selectModel (context : option Context) : M RouteDecision :=
  match forced context with
  | Some forceModel_ => selectForced forceModel_
  | None => ensureFresh ;; selectRouted context
  end.

End Router.

(* ===================================================================== *)
(** * gateway/optimizer-methods.ts: the route method *)

(** A value found under a key of the RPC parameters, by its [typeof]. *)
Inductive JsValue :=
| VUndefined
| VNumber (n : float)
| VString (s : string)
| VOther.

(** The three properties [createRouteMethod] reads from [params]. *)
Record RouteParams := {
  p_messageLength : JsValue;
  p_conversationDepth : JsValue;
  p_forceModel : JsValue
}.

Definition noParams : RouteParams :=
  {| p_messageLength := VUndefined; p_conversationDepth := VUndefined;
     p_forceModel := VUndefined |}.

Definition asNumber (v : JsValue) : option float :=
  match v with VNumber n => Some n | _ => None end.

Definition asString (v : JsValue) : option string :=
  match v with VString s => Some s | _ => None end.

(** The object literal the route method passes to [selectModel]. *)
Definition routeContext (params : option RouteParams) : Context :=
  let params_ := nullish params noParams in
  {| messageLength := asNumber (p_messageLength params_);
     conversationDepth := asNumber (p_conversationDepth params_);
     forceModel := asString (p_forceModel params_) |}.

Definition routeMethod (host : Host) (config : PluginConfig)
  (params : option RouteParams) : M RouteDecision :=
  selectModel host config (Some (routeContext params)).

(* ===================================================================== *)
(** * Sequences of calls on one engine *)

Inductive Call :=
| CallSelectModel (context : option Context)
| CallRefreshHealth.

Definition call (host : Host) (config : PluginConfig) (c : Call) (m : Machine) : Machine :=
  match c with
  | CallSelectModel context => snd (selectModel host config context m)
  | CallRefreshHealth => snd (refreshHealth host config m)
  end.

Definition run (host : Host) (config : PluginConfig) (cs : list Call) (m : Machine)
  : Machine :=
  fold_left (fun m c => call host config c m) cs m.

(** The engine right after [new OllamaClient(..)] and [new ModelRouter(..)]. *)
Definition newEngine (config : PluginConfig) : Machine :=
  {| health := initialHealth; state := initialState config; tick := 0; trace := [] |}.

(** How many times [refreshHealth] was entered, by the trace. *)
Definition isRefresh (e : Event) : bool :=
  match e with EvRefreshHealth => true | _ => false end.

Definition refreshes (t : list Event) : nat := length (filter isRefresh t).

(** The selection counter a decision of a given source is counted in. *)
Definition selections (src : Source) (s : RouterState) : N :=
  match src with
  | primary => primarySelections s
  | sidecar => sidecarSelections s
  | fallback => fallbackSelections s
  end.

(* ===================================================================== *)
(** * The policy table of the specification (section 4.3, step 6)

    This part follows the specification's wording, not the code: seven
    branches [a] to [g], each with its condition, tried in that order.
    It is compared with [selectLocal] below. *)

Record Facts := {
  primaryPulled : bool;
  primaryLoaded : bool;
  sidecarPulled : bool;
  sidecarLoaded : bool;
  overloaded : bool;
  simple : bool
}.

Inductive Branch :=
| Branch_a | Branch_b | Branch_c | Branch_d | Branch_e | Branch_f | Branch_g.

Definition branches : list Branch :=
  [Branch_a; Branch_b; Branch_c; Branch_d; Branch_e; Branch_f; Branch_g].

(** The position of a branch in the order of trial. *)
Definition rank (b : Branch) : nat :=
  match b with
  | Branch_a => 0 | Branch_b => 1 | Branch_c => 2 | Branch_d => 3
  | Branch_e => 4 | Branch_f => 5 | Branch_g => 6
  end.

Definition matches (f : Facts) (b : Branch) : bool :=
  match b with
  | Branch_a => primaryPulled f && primaryLoaded f && negb (overloaded f)
  | Branch_b => primaryPulled f && negb (overloaded f) && negb (simple f)
  | Branch_c => sidecarPulled f && (overloaded f || simple f)
  | Branch_d => sidecarPulled f && sidecarLoaded f
  | Branch_e => primaryPulled f
  | Branch_f => sidecarPulled f
  | Branch_g => true
  end.

Definition branch_source (b : Branch) : Source :=
  match b with
  | Branch_a | Branch_b | Branch_e => primary
  | Branch_c | Branch_d | Branch_f => sidecar
  | Branch_g => fallback
  end.

(** The reason attached to each branch, in the code's words; branch [c]
    names the condition that triggered it. *)
Definition branch_reason (host : Host) (config : PluginConfig) (f : Facts) (b : Branch)
  : string :=
  match b with
  | Branch_a => "Primary model loaded and GPU has capacity"
  | Branch_b => "Primary model available, loading for complex request"
  | Branch_c =>
      if overloaded f
      then "GPU VRAM above " ++ toFixed0 host (gpuMemoryThreshold config * 100)%float
           ++ "% - routing to CPU sidecar"
      else "Simple request routed to fast CPU sidecar"
  | Branch_d => "Sidecar already loaded - fast response path"
  | Branch_e => "Primary model available with partial GPU offload"
  | Branch_f => "Only sidecar model available"
  | Branch_g => "No local models available"
  end.

(** A branch fires when its condition holds and the condition of no
    branch tried before it does. *)
Definition fires (f : Facts) (b : Branch) : Prop :=
  matches f b = true /\ forall b', rank b' < rank b -> matches f b' = false.

Definition firstMatch (f : Facts) : option Branch := find (matches f) branches.

(** The branch the table selects: the first one that matches ([g] always
    does). *)
Definition policyBranch (f : Facts) : Branch := nullish (firstMatch f) Branch_g.

(** The facts the branch conditions are about, read off the router state
    and the request. *)
Definition factsOf (config : PluginConfig) (s : RouterState) (context : option Context)
  : Facts :=
  {| primaryPulled := pulled (primaryStatus s);
     primaryLoaded := loaded (primaryStatus s);
     sidecarPulled := pulled (sidecarStatus s);
     sidecarLoaded := loaded (sidecarStatus s);
     overloaded := isGpuOverloaded config s;
     simple := isSimpleRequest context |}.

(** The [decide*] method of a source. *)
Definition decideBy (host : Host) (config : PluginConfig) (src : Source)
  : string -> M RouteDecision :=
  match src with
  | primary => decidePrimary host config
  | sidecar => decideSidecar host config
  | fallback => decideFallback host config
  end.

(* ===================================================================== *)
(** * Relations between the router state before and after an operation *)

(** All four counters are left as they were. *)
Definition sameCounters (s s' : RouterState) : Prop :=
  decisionsCount s' = decisionsCount s /\
  primarySelections s' = primarySelections s /\
  sidecarSelections s' = sidecarSelections s /\
  fallbackSelections s' = fallbackSelections s.

(** One decision of source [src] was counted: the total and the counter
    of [src] went up by one, the other two counters are as they were. *)
Definition counted (src : Source) (s s' : RouterState) : Prop :=
  (decisionsCount s' = decisionsCount s + 1)%N /\
  (selections src s' = selections src s + 1)%N /\
  forall other, other <> src -> selections other s' = selections other s.

(** No counter went down. *)
Definition countersGrow (s s' : RouterState) : Prop :=
  (decisionsCount s <= decisionsCount s')%N /\
  (primarySelections s <= primarySelections s')%N /\
  (sidecarSelections s <= sidecarSelections s')%N /\
  (fallbackSelections s <= fallbackSelections s')%N.

(** The total is the sum of the three selection counters. *)
Definition countersAddUp (s : RouterState) : Prop :=
  (decisionsCount s =
   primarySelections s + sidecarSelections s + fallbackSelections s)%N.

(** Nothing but the clock was touched: same snapshot, same health-derived
    fields of the router state, same trace. *)
Definition healthUntouched (m m' : Machine) : Prop :=
  health m' = health m /\
  trace m' = trace m /\
  ollamaReachable (state m') = ollamaReachable (state m) /\
  lastHealthCheck (state m') = lastHealthCheck (state m) /\
  primaryStatus (state m') = primaryStatus (state m) /\
  sidecarStatus (state m') = sidecarStatus (state m) /\
  gpuUtilization (state m') = gpuUtilization (state m) /\
  vramUsage (state m') = vramUsage (state m).

(** A computation keeps a relation [R] between the router state it starts
    from and the one it ends in. *)
Definition preserves (R : RouterState -> RouterState -> Prop) {A : Type} (c : M A)
  : Prop :=
  forall m, R (state m) (state (snd (c m))).

(** The outcome of a [fetch] makes [fetchJson] throw. *)
Definition fails {T : Type} (o : FetchOutcome T) : Prop :=
  match fetchJson_result o with inl _ => True | inr _ => False end.

(* ===================================================================== *)
(** * Sample engines

    Concrete hosts, engines and requests on which the embedding is run. *)

(** A clock that starts at [start] and advances by one millisecond at
    every observation. *)
Fixpoint ticking (start : float) (n : nat) : float :=
  match n with
  | O => start
  | S k => (ticking start k + 1)%float
  end.

Definition deepseek : OllamaModel :=
  {| om_name := "deepseek-coder-v2:16b"; om_model := "deepseek-coder-v2:16b";
     om_modified_at := "2025-01-01T00:00:00Z"; om_size := 8905126121;
     om_digest := "63fb193b3a9b"; om_details := None |}.

Definition qwen : OllamaModel :=
  {| om_name := "qwen2.5-coder:7b"; om_model := "qwen2.5-coder:7b";
     om_modified_at := "2025-01-01T00:00:00Z"; om_size := 4683087332;
     om_digest := "2b0496514337"; om_details := None |}.

Definition deepseekRunning : OllamaRunningModel :=
  {| rm_name := "deepseek-coder-v2:16b"; rm_model := "deepseek-coder-v2:16b";
     rm_size := 8905126121; rm_digest := "63fb193b3a9b";
     rm_expires_at := "2025-01-01T00:30:00Z"; rm_size_vram := 8905126121;
     rm_details := None |}.

(** A host whose backend answers, with both models pulled and the primary
    one loaded, and whose GPU reports 4000 of 8000 MB in use. *)
Definition upHost : Host :=
  {| dateNow := ticking 100000;
     httpVersion := fun _ => Response true (Some {| vd_version := "0.5.7" |});
     httpTags := fun _ => Response true (Some {| td_models := Some [deepseek; qwen] |});
     httpPs := fun _ => Response true (Some {| pd_models := Some [deepseekRunning] |});
     getNvidiaGpuUtilization := fun _ => Some 40%float;
     getNvidiaVramUsage := fun _ => Some {| usedMB := 4000; totalMB := 8000 |};
     toFixed0 := fun _ => "85" |}.

(** A host whose backend refuses connections and that has no nvidia-smi. *)
Definition downHost : Host :=
  {| dateNow := ticking 100000;
     httpVersion := fun _ => NetworkError;
     httpTags := fun _ => NetworkError;
     httpPs := fun _ => NetworkError;
     getNvidiaGpuUtilization := fun _ => None;
     getNvidiaVramUsage := fun _ => None;
     toFixed0 := fun _ => "85" |}.

(** [coldHost] has both models pulled and none loaded; [offlineGpuHost]
    has a working GPU probe and a backend that times out. *)
Definition coldHost : Host :=
  {| dateNow := ticking 100000;
     httpVersion := fun _ => Response true (Some {| vd_version := "0.5.7" |});
     httpTags := fun _ => Response true (Some {| td_models := Some [deepseek; qwen] |});
     httpPs := fun _ => Response true (Some {| pd_models := Some [] |});
     getNvidiaGpuUtilization := fun _ => Some 40%float;
     getNvidiaVramUsage := fun _ => Some {| usedMB := 4000; totalMB := 8000 |};
     toFixed0 := fun _ => "85" |}.

Definition offlineGpuHost : Host :=
  {| dateNow := ticking 100000;
     httpVersion := fun _ => TimedOut;
     httpTags := fun _ => TimedOut;
     httpPs := fun _ => TimedOut;
     getNvidiaGpuUtilization := fun _ => Some 40%float;
     getNvidiaVramUsage := fun _ => Some {| usedMB := 4000; totalMB := 8000 |};
     toFixed0 := fun _ => "85" |}.

(** [hotHost] is [upHost] with 7200 of 8000 MB of VRAM in use;
    [emptyHost] answers with no model pulled. *)
Definition hotHost : Host :=
  {| dateNow := ticking 100000;
     httpVersion := fun _ => Response true (Some {| vd_version := "0.5.7" |});
     httpTags := fun _ => Response true (Some {| td_models := Some [deepseek; qwen] |});
     httpPs := fun _ => Response true (Some {| pd_models := Some [deepseekRunning] |});
     getNvidiaGpuUtilization := fun _ => Some 97%float;
     getNvidiaVramUsage := fun _ => Some {| usedMB := 7200; totalMB := 8000 |};
     toFixed0 := fun _ => "85" |}.

Definition emptyHost : Host :=
  {| dateNow := ticking 100000;
     httpVersion := fun _ => Response true (Some {| vd_version := "0.5.7" |});
     httpTags := fun _ => Response true (Some {| td_models := None |});
     httpPs := fun _ => Response true (Some {| pd_models := None |});
     getNvidiaGpuUtilization := fun _ => None;
     getNvidiaVramUsage := fun _ => None;
     toFixed0 := fun _ => "85" |}.

(** The engine on [upHost] after one [refreshHealth]. *)
Definition warmEngine : Machine :=
  snd (refreshHealth upHost DEFAULTS (newEngine DEFAULTS)).

Definition noHints : Context :=
  {| messageLength := None; conversationDepth := None; forceModel := None |}.

Definition zeroHints : Context :=
  {| messageLength := Some 0%float; conversationDepth := Some 0%float;
     forceModel := None |}.

Definition complexHints : Context :=
  {| messageLength := Some 500%float; conversationDepth := Some 5%float;
     forceModel := None |}.

Definition forceX : Context :=
  {| messageLength := None; conversationDepth := None; forceModel := Some "x" |}.

Definition coldEngine : Machine :=
  snd (refreshHealth coldHost DEFAULTS (newEngine DEFAULTS)).

Definition offlineEngine : Machine :=
  snd (refreshHealth offlineGpuHost DEFAULTS (newEngine DEFAULTS)).

Definition forcePrimary : Context :=
  {| messageLength := None; conversationDepth := None;
     forceModel := Some "deepseek-coder-v2:16b" |}.

Definition hotEngine : Machine :=
  snd (refreshHealth hotHost DEFAULTS (newEngine DEFAULTS)).

Definition emptyEngine : Machine :=
  snd (refreshHealth emptyHost DEFAULTS (newEngine DEFAULTS)).

Definition forceEmpty : Context :=
  {| messageLength := None; conversationDepth := None; forceModel := Some "" |}.

(* ===================================================================== *)
(** * More JavaScript operators *)

(** [Math.min(a, b)]: NaN when either argument is NaN, otherwise the
    smaller one, with -0 below +0. *)
Definition Math_min (a b : float) : float :=
  if PrimFloat.is_nan a || PrimFloat.is_nan b then nan
  else if (a <? b)%float then a
  else if (b <? a)%float then b
  else if PrimFloat.get_sign a then a else b.

(** The number a length or a count is: exact for every length a string or
    an array can have. *)
Fixpoint numberOfNat (n : nat) : float :=
  match n with
  | O => 0%float
  | S k => (numberOfNat k + 1)%float
  end.

(** [s.replace(/\/$/, "")]: [s] without its last character when that is
    a slash. *)
Fixpoint stripTrailingSlash (s : string) : string :=
  match s with
  | EmptyString => EmptyString
  | String c rest =>
      match rest with
      | EmptyString => if Ascii.eqb c "/"%char then EmptyString else s
      | String _ _ => String c (stripTrailingSlash rest)
      end
  end.

Fixpoint endsWithSlash (s : string) : bool :=
  match s with
  | EmptyString => false
  | String c rest =>
      match rest with
      | EmptyString => Ascii.eqb c "/"%char
      | String _ _ => endsWithSlash rest
      end
  end.

(** [s] without the prefix [p], when it starts with it. *)
Fixpoint dropPrefix (p s : string) : option string :=
  match p with
  | EmptyString => Some s
  | String a p' =>
      match s with
      | EmptyString => None
      | String b s' => if Ascii.eqb a b then dropPrefix p' s' else None
      end
  end.

(** [s.replace(/^ollama\//, "")]. *)
Definition stripOllamaPrefix (s : string) : string :=
  nullish (dropPrefix "ollama/" s) s.

(* ===================================================================== *)
(** * ollama-client.ts: the rest of class OllamaClient *)

(** The constructor's [this.host], and the URL of an endpoint. *)
Definition clientHost (host : string) : string := stripTrailingSlash host.

Definition endpointUrl (host path : string) : string := clientHost host ++ path.

Record VramTotal := { totalVram : float; modelCount : nat }.

Definition getTotalVramUsage : M VramTotal :=
  h <- getHealth ;;
  ret {| totalVram :=
           fold_left (fun total m => (total + rm_size_vram m)%float)
             (runningModels h) 0%float;
         modelCount := length (runningModels h) |}.

Definition estimateGpuLoad (gpuVramBytes : float) : M float :=
  if (gpuVramBytes <=? 0)%float then ret 0%float
  else
    t <- getTotalVramUsage ;;
    ret (Math_min (totalVram t / gpuVramBytes) 1).

(* ===================================================================== *)
(** * config.ts: resolvePluginConfig *)

(** A value of the raw plugin configuration, by its [typeof]; a missing
    key reads as [RawUndefined]. *)
Inductive RawValue :=
| RawUndefined
| RawNumber (n : float)
| RawString (s : string)
| RawBoolean (b : bool)
| RawOther.

Definition RawConfig : Type := string -> RawValue.

Definition stringOr (v : RawValue) (d : string) : string :=
  match v with RawString s => s | _ => d end.

Definition numberOr (v : RawValue) (d : float) : float :=
  match v with RawNumber n => n | _ => d end.

Definition booleanOr (v : RawValue) (d : bool) : bool :=
  match v with RawBoolean b => b | _ => d end.

Definition resolvePluginConfig (raw : option RawConfig) : PluginConfig :=
  match raw with
  | None => DEFAULTS
  | Some raw =>
      {| ollamaHost := stringOr (raw "ollamaHost") (ollamaHost DEFAULTS);
         primaryModel := stringOr (raw "primaryModel") (primaryModel DEFAULTS);
         sidecarModel := stringOr (raw "sidecarModel") (sidecarModel DEFAULTS);
         fallbackModel :=
           match raw "fallbackModel" with RawString s => Some s | _ => None end;
         keepAliveMinutes :=
           numberOr (raw "keepAliveMinutes") (keepAliveMinutes DEFAULTS);
         gpuMemoryThreshold :=
           numberOr (raw "gpuMemoryThreshold") (gpuMemoryThreshold DEFAULTS);
         healthCheckIntervalSec :=
           numberOr (raw "healthCheckIntervalSec") (healthCheckIntervalSec DEFAULTS);
         preloadOnStart := booleanOr (raw "preloadOnStart") (preloadOnStart DEFAULTS);
         autoRoute := booleanOr (raw "autoRoute") (autoRoute DEFAULTS);
         dashboardEnabled :=
           booleanOr (raw "dashboardEnabled") (dashboardEnabled DEFAULTS) |}
  end.

(** A [PluginConfig] object read as a raw configuration: its ten
    properties under their names, [fallbackModel] missing when unset. *)
Definition rawOfConfig (c : PluginConfig) : RawConfig := fun key =>
  if String.eqb key "ollamaHost" then RawString (ollamaHost c)
  else if String.eqb key "primaryModel" then RawString (primaryModel c)
  else if String.eqb key "sidecarModel" then RawString (sidecarModel c)
  else if String.eqb key "fallbackModel" then
    match fallbackModel c with Some s => RawString s | None => RawUndefined end
  else if String.eqb key "keepAliveMinutes" then RawNumber (keepAliveMinutes c)
  else if String.eqb key "gpuMemoryThreshold" then RawNumber (gpuMemoryThreshold c)
  else if String.eqb key "healthCheckIntervalSec" then
    RawNumber (healthCheckIntervalSec c)
  else if String.eqb key "preloadOnStart" then RawBoolean (preloadOnStart c)
  else if String.eqb key "autoRoute" then RawBoolean (autoRoute c)
  else if String.eqb key "dashboardEnabled" then RawBoolean (dashboardEnabled c)
  else RawUndefined.

(** Sample raw configurations: an empty object, one with a key the
    resolver does not know, and two with a NaN number. *)
Definition emptyRaw : RawConfig := fun _ => RawUndefined.

Definition strayRaw : RawConfig := fun key =>
  if String.eqb key "verbose" then RawBoolean true else RawUndefined.

Definition nanIntervalRaw : RawConfig := fun key =>
  if String.eqb key "healthCheckIntervalSec" then RawNumber nan else RawUndefined.

Definition nanThresholdRaw : RawConfig := fun key =>
  if String.eqb key "gpuMemoryThreshold" then RawNumber nan else RawUndefined.

(** The ten keys [resolvePluginConfig] reads. *)
Definition configKeys : list string :=
  ["ollamaHost"; "primaryModel"; "sidecarModel"; "fallbackModel";
   "keepAliveMinutes"; "gpuMemoryThreshold"; "healthCheckIntervalSec";
   "preloadOnStart"; "autoRoute"; "dashboardEnabled"].

(* ===================================================================== *)
(** * router.ts: start, stop and the health timer

    The router object with its timer handle, the interval table of the
    event loop it runs in, and the warm-up requests sent so far. *)

(** The body of a POST to [/api/generate]; [g_keep_alive] is the number of
    minutes [N] of the string ["Nm"]. *)
Record GenerateRequest := {
  g_model : string;
  g_prompt : string;
  g_keep_alive : float;
  g_stream : bool
}.

Record Service := {
  engine : Machine;
  healthInterval : option nat;
  intervals : list nat;
  nextHandle : nat;
  generated : list GenerateRequest
}.

(** A computation of [M] run on the engine of a service. *)
Definition onEngine {A : Type} (c : M A) (s : Service) : A * Service :=
  let r := c (engine s) in
  (fst r,
   {| engine := snd r; healthInterval := healthInterval s;
      intervals := intervals s; nextHandle := nextHandle s;
      generated := generated s |}).

Section Lifecycle.

Variable host : Host.

(** How the POST of a warm-up ends, by the index of the observation. *)
Variable generate : nat -> FetchOutcome unit.

Variable config : PluginConfig.

(** [OllamaClient.warmModel]: one request, [true] when it succeeds, any
    failure swallowed. *)
Definition warmModel (modelName : string) (keepAliveMinutes_ : float) (s : Service)
  : bool * Service :=
  let r := observe generate (engine s) in
  (match fetchJson_result (fst r) with inr _ => true | inl _ => false end,
   {| engine := snd r; healthInterval := healthInterval s;
      intervals := intervals s; nextHandle := nextHandle s;
      generated :=
        {| g_model := modelName; g_prompt := ""; g_keep_alive := keepAliveMinutes_;
           g_stream := false |} :: generated s |}).

(** [setInterval]: a fresh handle, entered in the table and stored in
    [this.healthInterval]. *)
Definition setHealthInterval (s : Service) : Service :=
  {| engine := engine s; healthInterval := Some (nextHandle s);
     intervals := nextHandle s :: intervals s; nextHandle := S (nextHandle s);
     generated := generated s |}.

Definition start (s : Service) : Service :=
  let s1 := snd (onEngine (refreshHealth host config) s) in
  let s2 := setHealthInterval s1 in
  if preloadOnStart config && pulled (primaryStatus (state (engine s2)))
  then snd (warmModel (primaryModel config) (keepAliveMinutes config) s2)
  else s2.

Definition stop (s : Service) : Service :=
  match healthInterval s with
  | Some h =>
      {| engine := engine s; healthInterval := None;
         intervals := filter (fun h' => negb (Nat.eqb h' h)) (intervals s);
         nextHandle := nextHandle s; generated := generated s |}
  | None => s
  end.

(** The interval of handle [h] elapses: its callback runs when the handle
    is still in the table. *)
Definition fire (h : nat) (s : Service) : Service :=
  if existsb (Nat.eqb h) (intervals s)
  then snd (onEngine (refreshHealth host config) s)
  else s.

(** [getState]: a copy of the router state. *)
Definition getRouterState (s : Service) : RouterState := state (engine s).

(* --------------------------------------------------------------------- *)
(** ** hooks/agent-end.ts *)

(** The model the [agent_end] hook refreshes the keep-alive of, if any. *)
Definition agentEndTarget (eventModel : option string) : option string :=
  match eventModel with
  | None => None
  | Some modelUsed =>
      if negb (truthy modelUsed) then None
      else
        let ollamaModel := stripOllamaPrefix modelUsed in
        if String.eqb ollamaModel (primaryModel config)
           || String.eqb ollamaModel (sidecarModel config)
        then Some ollamaModel
        else None
  end.

Definition agentEndHook (eventModel : option string) (s : Service) : Service :=
  match agentEndTarget eventModel with
  | Some ollamaModel => snd (warmModel ollamaModel (keepAliveMinutes config) s)
  | None => s
  end.

End Lifecycle.

(* ===================================================================== *)
(** * hooks/before-agent-start.ts *)

Record BeforeAgentStartEvent := {
  prompt : option string;
  messages : option (list JsValue);
  ev_model : option string
}.

Record BeforeAgentStartResult := {
  res_model : option string;
  prependContext : option string
}.

Definition sourceTag (src : Source) : string :=
  match src with
  | primary => "GPU"
  | sidecar => "CPU-sidecar"
  | fallback => "remote-fallback"
  end.

(** The hints the hook computes from the event. *)
Definition hookContext (event : BeforeAgentStartEvent) : Context :=
  {| messageLength :=
       Some (nullish (option_map (fun p => numberOfNat (String.length p)) (prompt event))
               0%float);
     conversationDepth :=
       Some (match messages event with
             | Some l => numberOfNat (length l)
             | None => 0%float
             end);
     forceModel := None |}.

Definition beforeAgentStartHook (host : Host) (config : PluginConfig)
  (event : BeforeAgentStartEvent) : M (option BeforeAgentStartResult) :=
  if negb (autoRoute config) then ret None
  else
    decision <- selectModel host config (Some (hookContext event)) ;;
    ret (Some {| res_model := Some (model decision);
                 prependContext :=
                   Some ("[model-optimizer: " ++ model decision ++ " ("
                         ++ sourceTag (source decision) ++ ")]") |}).

(* ===================================================================== *)
(** * gateway/optimizer-methods.ts: the refresh method *)

Record RefreshReply := {
  success : bool;
  reply_ollamaReachable : bool;
  reply_primaryPulled : bool;
  reply_sidecarPulled : bool;
  reply_lastHealthCheck : float
}.

Definition refreshMethod (host : Host) (config : PluginConfig) : M RefreshReply :=
  refreshHealth host config ;;
  s <- getState ;;
  ret {| success := true;
         reply_ollamaReachable := ollamaReachable s;
         reply_primaryPulled := pulled (primaryStatus s);
         reply_sidecarPulled := pulled (sidecarStatus s);
         reply_lastHealthCheck := lastHealthCheck s |}.

(* ===================================================================== *)
(** * gpu-detect.ts: reading the output of nvidia-smi

    A string is its sequence of code units, each below 256; the integer
    [parseInt] reads is kept as it is read, sign and magnitude, before it
    is rounded to a number. *)

Record JsInt := { negative : bool; magnitude : N }.

(** The white space and line terminators of [trim] and [parseInt]: tab,
    line feed, vertical tab, form feed, carriage return, space and
    no-break space. *)
Definition isWhiteSpace (c : ascii) : bool :=
  existsb (Ascii.eqb c)
    [ascii_of_nat 9; ascii_of_nat 10; ascii_of_nat 11; ascii_of_nat 12;
     ascii_of_nat 13; ascii_of_nat 32; ascii_of_nat 160].

Fixpoint trimStart (s : string) : string :=
  match s with
  | EmptyString => EmptyString
  | String c rest => if isWhiteSpace c then trimStart rest else s
  end.

Fixpoint trimEnd (s : string) : string :=
  match s with
  | EmptyString => EmptyString
  | String c rest =>
      match trimEnd rest with
      | EmptyString => if isWhiteSpace c then EmptyString else String c EmptyString
      | String c' rest' => String c (String c' rest')
      end
  end.

(** [s.trim()]. *)
Definition trim (s : string) : string := trimEnd (trimStart s).

(** The value of a decimal digit. *)
Definition digitValue (c : ascii) : option N :=
  let n := N_of_ascii c in
  if (48 <=? n)%N && (n <=? 57)%N then Some (n - 48)%N else None.

(** The value of the digits [s] starts with, read after [acc]. *)
Fixpoint digitsFrom (acc : N) (s : string) : N :=
  match s with
  | EmptyString => acc
  | String c rest =>
      match digitValue c with
      | Some d => digitsFrom (10 * acc + d)%N rest
      | None => acc
      end
  end.

(** [parseInt(s, 10)]: leading white space skipped, an optional sign,
    then the longest run of digits; [None] is NaN. *)
Definition parseInt10 (s : string) : option JsInt :=
  let s1 := trimStart s in
  let signed :=
    match s1 with
    | EmptyString => (false, s1)
    | String c rest =>
        if Ascii.eqb c "-"%char then (true, rest)
        else if Ascii.eqb c "+"%char then (false, rest)
        else (false, s1)
    end in
  match snd signed with
  | EmptyString => None
  | String c rest =>
      match digitValue c with
      | Some d => Some {| negative := fst signed; magnitude := digitsFrom d rest |}
      | None => None
      end
  end.

Definition lineFeed : ascii := ascii_of_nat 10.

(** [s.split("\n")[0]]. *)
Fixpoint firstLine (s : string) : string :=
  match s with
  | EmptyString => EmptyString
  | String c rest => if Ascii.eqb c lineFeed then EmptyString else String c (firstLine rest)
  end.

(** [s.split(sep)] for a separator of one character. *)
Fixpoint splitOn (sep : ascii) (s : string) : list string :=
  match s with
  | EmptyString => [EmptyString]
  | String c rest =>
      if Ascii.eqb c sep then EmptyString :: splitOn sep rest
      else
        match splitOn sep rest with
        | field :: fields => String c field :: fields
        | [] => [String c EmptyString]
        end
  end.

(** The body of [getNvidiaGpuUtilization], from what [tryExec] returned
    ([None] when the command failed). *)
Definition readGpuUtilization (out : option string) : option JsInt :=
  match out with
  | None => None
  | Some o =>
      if negb (truthy o) then None
      else parseInt10 (trim (firstLine o))
  end.

Record VramReading := { readUsedMB : JsInt; readTotalMB : JsInt }.

(** The body of [getNvidiaVramUsage]: fewer than two fields, or a first
    or second field that is NaN, give [None]. *)
Definition readVramUsage (out : option string) : option VramReading :=
  match out with
  | None => None
  | Some o =>
      if negb (truthy o) then None
      else
        let parts :=
          map (fun p => parseInt10 (trim p)) (splitOn ","%char (firstLine o)) in
        match parts with
        | Some u :: Some t :: _ => Some {| readUsedMB := u; readTotalMB := t |}
        | _ => None
        end
  end.

(** The character [c] occurs in [s]. *)
Fixpoint occurs (c : ascii) (s : string) : bool :=
  match s with
  | EmptyString => false
  | String c' rest => Ascii.eqb c' c || occurs c rest
  end.




(* ===================================================================== *)
(** * Relations used by the further properties *)

(** The router's view of the backend is the one derived from the
    client's cached snapshot. *)
Definition inSync (config : PluginConfig) (m : Machine) : Prop :=
  ollamaReachable (state m) = reachable (health m) /\
  primaryStatus (state m) = modelStatusOf (health m) (primaryModel config) /\
  sidecarStatus (state m) = modelStatusOf (health m) (sidecarModel config).

(** The snapshot [checkHealth] caches in its [catch] block, from the
    previous snapshot [h] and the clock reading [now]. *)
Definition failedSnapshot (h : OllamaHealth) (now : float) : OllamaHealth :=
  {| reachable := false; version := None; pulledModels := pulledModels h;
     runningModels := []; lastChecked := now |}.

(** The status of a model that is neither pulled nor running. *)
Definition unknownStatus (modelName : string) : ModelStatus :=
  {| ms_name := modelName; pulled := false; loaded := false; sizeBytes := 0;
     vramBytes := 0; expiresAt := None; parameterSize := None;
     quantization := None; ms_family := None |}.

(** The outcome of a [fetch] lets [fetchJson] return; and the three
    requests of a health check that starts at observation [k] all do. *)
Definition succeeds {T : Type} (o : FetchOutcome T) : bool :=
  match fetchJson_result o with inr _ => true | inl _ => false end.

Definition backendAnswers (host : Host) (k : nat) : bool :=
  succeeds (httpVersion host k) && succeeds (httpTags host (S k))
  && succeeds (httpPs host (S (S k))).

(** The body [warmModel] posts for a model. *)
Definition warmRequest (modelName : string) (keepAliveMinutes_ : float)
  : GenerateRequest :=
  {| g_model := modelName; g_prompt := ""; g_keep_alive := keepAliveMinutes_;
     g_stream := false |}.

(** Every handle in the interval table has been handed out already. *)
Definition handlesIssued (s : Service) : Prop :=
  forall h, In h (intervals s) -> h < nextHandle s.

(** A service around a new engine: no timer yet. *)
Definition newService (config : PluginConfig) : Service :=
  {| engine := newEngine config; healthInterval := None; intervals := [];
     nextHandle := 0; generated := [] |}.

(** A backend whose [/api/generate] always answers. *)
Definition generateOk : nat -> FetchOutcome unit := fun _ => Response true (Some tt).

Definition generateDown : nat -> FetchOutcome unit := fun _ => NetworkError.

(** A service started once on [upHost], and an event without prompt. *)
Definition runningService : Service :=
  Eval vm_compute in start upHost generateOk DEFAULTS (newService DEFAULTS).

Definition emptyEvent : BeforeAgentStartEvent :=
  {| prompt := None; messages := None; ev_model := None |}.

(* ===================================================================== *)
(** * Frame rules for the monad *)

Section Preserves.

Variable R : RouterState -> RouterState -> Prop.
Hypothesis R_refl : forall s, R s s.
Hypothesis R_trans : forall a b c, R a b -> R b c -> R a c.

Lemma preserves_ret {A : Type} (a : A) : preserves R (ret a).
Proof. intro m. apply R_refl. Qed.

Lemma preserves_bind {A B : Type} (c : M A) (k : A -> M B) :
  preserves R c -> (forall a, preserves R (k a)) -> preserves R (bind c k).
Proof.
  intros Hc Hk m. unfold bind. cbv zeta.
  eapply R_trans; [apply Hc | apply Hk].
Qed.

Lemma preserves_getState : preserves R getState.
Proof. intro m. apply R_refl. Qed.

Lemma preserves_getHealth : preserves R getHealth.
Proof. intro m. apply R_refl. Qed.

Lemma preserves_putHealth (h : OllamaHealth) : preserves R (putHealth h).
Proof. intro m. apply R_refl. Qed.

Lemma preserves_observe {A : Type} (f : nat -> A) : preserves R (observe f).
Proof. intro m. apply R_refl. Qed.

Lemma preserves_emit (e : Event) : preserves R (emit e).
Proof. intro m. apply R_refl. Qed.

Lemma preserves_modifyState (f : RouterState -> RouterState) :
  (forall s, R s (f s)) -> preserves R (modifyState f).
Proof. intros Hf m. apply Hf. Qed.

End Preserves.

(** Walks through a computation built from the primitives, leaving one
    goal for each [modifyState]. *)
Ltac preserves_steps :=
  repeat first
    [ apply preserves_modifyState
    | eapply preserves_bind; [eassumption | | intro]
    | apply preserves_ret; assumption
    | apply preserves_getState; assumption
    | apply preserves_getHealth; assumption
    | apply preserves_putHealth; assumption
    | apply preserves_observe; assumption
    | apply preserves_emit; assumption
    | match goal with
      | |- preserves _ (match ?x with _ => _ end) => destruct x
      end ].

Lemma sameCounters_refl (s : RouterState) : sameCounters s s.
Proof. repeat split. Qed.

Lemma sameCounters_trans (a b c : RouterState) :
  sameCounters a b -> sameCounters b c -> sameCounters a c.
Proof.
  unfold sameCounters. intros (H1 & H2 & H3 & H4) (K1 & K2 & K3 & K4).
  repeat split; congruence.
Qed.

Section FrameCheckHealth.

Variable host : Host.
Variable R : RouterState -> RouterState -> Prop.
Hypothesis R_refl : forall s, R s s.
Hypothesis R_trans : forall a b c, R a b -> R b c -> R a c.

(** [checkHealth] works on the client's snapshot only. *)
Lemma preserves_checkHealth : preserves R (checkHealth host).
Proof.
  unfold checkHealth, checkHealth_try, checkHealth_catch, fetchVersion, fetchTags,
    fetchPs, bindX, Date_now.
  preserves_steps.
Qed.

End FrameCheckHealth.

Section Frame.

Variable host : Host.
Variable config : PluginConfig.

Lemma checkHealth_state (m : Machine) : state (snd (checkHealth host m)) = state m.
Proof.
  symmetry. apply (preserves_checkHealth host eq); congruence.
Qed.

(** [refreshHealth] rewrites the health fields and nothing else. *)
Lemma refreshHealth_sameCounters : preserves sameCounters (refreshHealth host config).
Proof.
  pose proof sameCounters_refl as Rf. pose proof sameCounters_trans as T.
  unfold refreshHealth, getModelStatus, Date_now.
  preserves_steps; intro; repeat split.
Qed.

Lemma refreshHealth_lastDecision (m : Machine) :
  lastDecision (state (snd (refreshHealth host config m))) = lastDecision (state m).
Proof.
  revert m.
  change (preserves (fun s s' => lastDecision s' = lastDecision s)
            (refreshHealth host config)).
  assert (Rf : forall s : RouterState, lastDecision s = lastDecision s) by reflexivity.
  assert (T : forall a b c : RouterState,
             lastDecision b = lastDecision a -> lastDecision c = lastDecision b ->
             lastDecision c = lastDecision a) by congruence.
  unfold refreshHealth, getModelStatus, Date_now.
  preserves_steps; intro; reflexivity.
Qed.

Lemma ensureFresh_sameCounters : preserves sameCounters (ensureFresh host config).
Proof.
  intro m. unfold ensureFresh, Date_now, bind, observe, getState. cbn [fst snd state].
  destruct (isStale _ _ _).
  - apply (refreshHealth_sameCounters
             {| health := health m; state := state m; tick := S (tick m);
                trace := trace m |}).
  - apply sameCounters_refl.
Qed.

Lemma ensureFresh_lastDecision (m : Machine) :
  lastDecision (state (snd (ensureFresh host config m))) = lastDecision (state m).
Proof.
  unfold ensureFresh, Date_now, bind, observe, getState. cbn [fst snd state].
  destruct (isStale _ _ _); [| reflexivity].
  rewrite refreshHealth_lastDecision. reflexivity.
Qed.

End Frame.

(* ===================================================================== *)
(** * The three [decide*] methods *)

Section Decide.

Variable host : Host.
Variable config : PluginConfig.

Lemma decideBy_source (src : Source) (r : string) (m : Machine) :
  source (fst (decideBy host config src r m)) = src.
Proof. destruct src; reflexivity. Qed.

Lemma decideBy_reason (src : Source) (r : string) (m : Machine) :
  reason (fst (decideBy host config src r m)) = r.
Proof. destruct src; reflexivity. Qed.

Lemma decideBy_counted (src : Source) (r : string) (m : Machine) :
  counted src (state m) (state (snd (decideBy host config src r m))).
Proof.
  destruct src; (split; [reflexivity | split; [reflexivity |]]);
    intros [] H; try reflexivity; contradiction H; reflexivity.
Qed.

Lemma decideBy_lastDecision (src : Source) (r : string) (m : Machine) :
  lastDecision (state (snd (decideBy host config src r m)))
  = Some (fst (decideBy host config src r m)).
Proof. destruct src; reflexivity. Qed.

Lemma decideBy_healthUntouched (src : Source) (r : string) (m : Machine) :
  healthUntouched m (snd (decideBy host config src r m)).
Proof. destruct src; repeat split. Qed.

Lemma decideBy_tick (src : Source) (r : string) (m : Machine) :
  tick (snd (decideBy host config src r m)) = S (tick m).
Proof. destruct src; reflexivity. Qed.

(** The readings a decision of each source records. *)
Lemma decideBy_readings (src : Source) (r : string) (m : Machine) :
  let d := fst (decideBy host config src r m) in
  d_gpuUtilization d = gpuUtilization (state m) /\
  vramUsedMB d
  = match src with fallback => None | _ => option_map usedMB (vramUsage (state m)) end /\
  vramTotalMB d
  = match src with fallback => None | _ => option_map totalMB (vramUsage (state m)) end.
Proof. destruct src; repeat split. Qed.

Lemma decideBy_model (src : Source) (r : string) (m : Machine) :
  model (fst (decideBy host config src r m))
  = match src with
    | primary => "ollama/" ++ primaryModel config
    | sidecar => "ollama/" ++ sidecarModel config
    | fallback => nullish (fallbackModel config) "anthropic/claude-sonnet-4-5"
    end.
Proof. destruct src; reflexivity. Qed.

(* ===================================================================== *)
(** * The policy table against the code *)

Lemma rank_injective (b b' : Branch) : rank b = rank b' -> b = b'.
Proof. destruct b, b'; simpl; intro H; try reflexivity; discriminate H. Qed.

Lemma fires_unique (f : Facts) (b b' : Branch) : fires f b -> fires f b' -> b = b'.
Proof.
  intros [Hb Lb] [Hb' Lb'].
  destruct (Nat.lt_trichotomy (rank b) (rank b')) as [L | [E | L]].
  - rewrite (Lb' b L) in Hb. discriminate Hb.
  - apply rank_injective, E.
  - rewrite (Lb b' L) in Hb'. discriminate Hb'.
Qed.

Lemma policyBranch_first (f : Facts) : firstMatch f = Some (policyBranch f).
Proof.
  unfold policyBranch, firstMatch, branches. cbn [find].
  repeat match goal with
         | |- context [if matches f ?b then _ else _] =>
             destruct (matches f b) eqn:?; [reflexivity |]
         end.
  discriminate.
Qed.

Lemma firstMatch_fires (f : Facts) (b : Branch) : firstMatch f = Some b -> fires f b.
Proof.
  unfold firstMatch, branches. cbn [find].
  repeat match goal with
         | |- context [if matches f ?b then _ else _] =>
             destruct (matches f b) eqn:?;
             [ intro E; injection E as <-; split;
               [ assumption
               | intros b' L; destruct b'; cbn [rank] in L; solve [assumption | lia] ]
             |]
         end.
  discriminate.
Qed.

(** No branch of the table is dead: each one fires on some facts. *)
Lemma every_branch_can_fire (b : Branch) : exists f, fires f b.
Proof.
  destruct b;
    [ exists {| primaryPulled := true; primaryLoaded := true; sidecarPulled := false;
                sidecarLoaded := false; overloaded := false; simple := false |}
    | exists {| primaryPulled := true; primaryLoaded := false; sidecarPulled := false;
                sidecarLoaded := false; overloaded := false; simple := false |}
    | exists {| primaryPulled := true; primaryLoaded := false; sidecarPulled := true;
                sidecarLoaded := false; overloaded := true; simple := false |}
    | exists {| primaryPulled := false; primaryLoaded := false; sidecarPulled := true;
                sidecarLoaded := true; overloaded := false; simple := false |}
    | exists {| primaryPulled := true; primaryLoaded := false; sidecarPulled := false;
                sidecarLoaded := false; overloaded := true; simple := false |}
    | exists {| primaryPulled := false; primaryLoaded := false; sidecarPulled := true;
                sidecarLoaded := false; overloaded := false; simple := false |}
    | exists {| primaryPulled := false; primaryLoaded := false; sidecarPulled := false;
                sidecarLoaded := false; overloaded := false; simple := false |} ];
    (split; [reflexivity | intros b' L; destruct b'; cbn [rank] in L; solve [reflexivity | lia]]).
Qed.

Lemma policyBranch_fires (f : Facts) : fires f (policyBranch f).
Proof. apply firstMatch_fires, policyBranch_first. Qed.

(** The if-chain of [selectLocal] takes the branch the table selects. *)
Lemma selectLocal_table (context : option Context) (m : Machine) :
  let f := factsOf config (state m) context in
  selectLocal host config context m
  = decideBy host config (branch_source (policyBranch f))
      (branch_reason host config f (policyBranch f)) m.
Proof.
  unfold selectLocal, bind, getState. cbn [fst snd].
  unfold policyBranch, firstMatch, branches, factsOf. cbn [find matches
    primaryPulled primaryLoaded sidecarPulled sidecarLoaded overloaded simple].
  destruct (pulled (primaryStatus (state m))), (loaded (primaryStatus (state m))),
    (pulled (sidecarStatus (state m))), (loaded (sidecarStatus (state m))),
    (isGpuOverloaded config (state m)), (isSimpleRequest context); reflexivity.
Qed.

(** [selectRouted] always ends in one of the three [decide*] methods. *)
Lemma selectRouted_decideBy (context : option Context) (m : Machine) :
  exists src r, selectRouted host config context m = decideBy host config src r m.
Proof.
  unfold selectRouted, bind, getState. cbn [fst snd].
  destruct (ollamaReachable (state m)); cbn [negb].
  - rewrite selectLocal_table. eauto.
  - exists fallback. eexists. reflexivity.
Qed.

End Decide.

(* ===================================================================== *)
(** * What [selectModel] does to the trace and to the counters *)

Section SelectModel.

Variable host : Host.
Variable config : PluginConfig.

Lemma checkHealth_refreshes (m : Machine) :
  refreshes (trace (snd (checkHealth host m))) = refreshes (trace m).
Proof.
  unfold checkHealth, checkHealth_try, checkHealth_catch, fetchVersion, fetchTags,
    fetchPs, bindX, Date_now, bind, observe, emit, getHealth, putHealth, ret.
  cbn [fst snd tick trace].
  destruct (fetchJson_result (httpVersion host (tick m))); [reflexivity |].
  cbn [fst snd tick trace].
  destruct (fetchJson_result (httpTags host (S (tick m)))); [reflexivity |].
  cbn [fst snd tick trace].
  destruct (fetchJson_result (httpPs host (S (S (tick m))))); reflexivity.
Qed.

Lemma refreshHealth_refreshes (m : Machine) :
  refreshes (trace (snd (refreshHealth host config m))) = S (refreshes (trace m)).
Proof.
  unfold refreshHealth.
  cbn [bind modifyState getModelStatus getState getHealth putState Date_now observe
       emit ret fst snd trace].
  change (refreshes (EvNvidiaSmi :: EvNvidiaSmi :: ?t)) with (refreshes t).
  rewrite checkHealth_refreshes. reflexivity.
Qed.

Lemma selectRouted_healthUntouched (context : option Context) (m : Machine) :
  healthUntouched m (snd (selectRouted host config context m)).
Proof.
  destruct (selectRouted_decideBy host config context m) as (src & r & E).
  rewrite E. apply decideBy_healthUntouched.
Qed.

Lemma selectRouted_counted (context : option Context) (m : Machine) :
  let r := selectRouted host config context m in
  counted (source (fst r)) (state m) (state (snd r)) /\
  lastDecision (state (snd r)) = Some (fst r).
Proof.
  destruct (selectRouted_decideBy host config context m) as (src & r & E).
  cbv zeta. rewrite E, decideBy_source.
  split; [apply decideBy_counted | apply decideBy_lastDecision].
Qed.

Lemma counted_trans_same (src : Source) (a b c : RouterState) :
  sameCounters a b -> counted src b c -> counted src a c.
Proof.
  intros (H1 & H2 & H3 & H4) (K1 & K2 & K3).
  assert (S : forall x, selections x b = selections x a) by (intros []; assumption).
  split; [congruence | split; [rewrite <- S; assumption |]].
  intros other Ho. rewrite <- S. apply K3, Ho.
Qed.

Lemma selectModel_unforced (context : option Context) (m : Machine) :
  forced context = None ->
  selectModel host config context m
  = selectRouted host config context (snd (ensureFresh host config m)).
Proof. intro F. unfold selectModel. rewrite F. reflexivity. Qed.

Lemma selectModel_forced (context : option Context) (x : string) (m : Machine) :
  forced context = Some x ->
  selectModel host config context m = selectForced host x m.
Proof. intro F. unfold selectModel. rewrite F. reflexivity. Qed.

Lemma forced_truthy (c : Context) (x : string) :
  forceModel c = Some x -> x <> "" -> forced (Some c) = Some x.
Proof.
  intros E N. unfold forced. rewrite E.
  destruct x; [contradiction N; reflexivity | reflexivity].
Qed.

Lemma counted_grows (src : Source) (s s' : RouterState) :
  counted src s s' -> countersGrow s s'.
Proof.
  intros (H1 & H2 & H3). unfold countersGrow.
  destruct src; cbn [selections] in H2.
  - pose proof (H3 sidecar) as A. pose proof (H3 fallback) as B. cbn [selections] in A, B.
    rewrite A, B by discriminate. lia.
  - pose proof (H3 primary) as A. pose proof (H3 fallback) as B. cbn [selections] in A, B.
    rewrite A, B by discriminate. lia.
  - pose proof (H3 primary) as A. pose proof (H3 sidecar) as B. cbn [selections] in A, B.
    rewrite A, B by discriminate. lia.
Qed.

Lemma counted_addUp (src : Source) (s s' : RouterState) :
  counted src s s' -> countersAddUp s -> countersAddUp s'.
Proof.
  intros (H1 & H2 & H3) I. unfold countersAddUp in *.
  destruct src; cbn [selections] in H2.
  - pose proof (H3 sidecar) as A. pose proof (H3 fallback) as B. cbn [selections] in A, B.
    rewrite A, B by discriminate. lia.
  - pose proof (H3 primary) as A. pose proof (H3 fallback) as B. cbn [selections] in A, B.
    rewrite A, B by discriminate. lia.
  - pose proof (H3 primary) as A. pose proof (H3 sidecar) as B. cbn [selections] in A, B.
    rewrite A, B by discriminate. lia.
Qed.

Lemma sameCounters_grows (s s' : RouterState) : sameCounters s s' -> countersGrow s s'.
Proof. intros (H1 & H2 & H3 & H4). unfold countersGrow. lia. Qed.

Lemma sameCounters_addUp (s s' : RouterState) :
  sameCounters s s' -> countersAddUp s -> countersAddUp s'.
Proof. intros (H1 & H2 & H3 & H4) I. unfold countersAddUp in *. lia. Qed.

(** What a call of [selectModel] does to the counters, by cases. *)
Lemma selectModel_counters (context : option Context) (m : Machine) :
  let r := selectModel host config context m in
  match forced context with
  | None => counted (source (fst r)) (state m) (state (snd r))
  | Some _ => sameCounters (state m) (state (snd r))
  end.
Proof.
  cbv zeta. destruct (forced context) as [x |] eqn:F.
  - rewrite (selectModel_forced context x m F). repeat split.
  - rewrite (selectModel_unforced context m F).
    eapply counted_trans_same; [apply ensureFresh_sameCounters |].
    apply selectRouted_counted.
Qed.

(** One call keeps the sum and lowers no counter. *)
Lemma call_counters (c : Call) (m : Machine) :
  countersGrow (state m) (state (call host config c m)) /\
  (countersAddUp (state m) -> countersAddUp (state (call host config c m))).
Proof.
  destruct c as [context |]; cbn [call].
  - pose proof (selectModel_counters context m) as H. cbv zeta in H.
    destruct (forced context).
    + split; [apply sameCounters_grows, H | apply sameCounters_addUp, H].
    + split; [eapply counted_grows, H | eapply counted_addUp, H].
  - pose proof (refreshHealth_sameCounters host config m) as H.
    split; [apply sameCounters_grows, H | apply sameCounters_addUp, H].
Qed.

Lemma countersGrow_trans (a b c : RouterState) :
  countersGrow a b -> countersGrow b c -> countersGrow a c.
Proof.
  unfold countersGrow. intros (H1 & H2 & H3 & H4) (K1 & K2 & K3 & K4).
  repeat split; lia.
Qed.

Lemma run_counters (cs : list Call) (m : Machine) :
  countersGrow (state m) (state (run host config cs m)) /\
  (countersAddUp (state m) -> countersAddUp (state (run host config cs m))).
Proof.
  revert m. induction cs as [| c cs IH]; intro m; cbn [run fold_left].
  - split; [unfold countersGrow; lia | trivial].
  - destruct (call_counters c m) as [G A].
    destruct (IH (call host config c m)) as [G' A'].
    split; [eapply countersGrow_trans; eassumption | auto].
Qed.

Lemma run_app (cs1 cs2 : list Call) (m : Machine) :
  run host config (cs1 ++ cs2) m = run host config cs2 (run host config cs1 m).
Proof. unfold run. apply fold_left_app. Qed.

End SelectModel.

Lemma ollama_prefix_changes (name : string) : "ollama/" ++ name <> name.
Proof.
  intro E. apply (f_equal String.length) in E. cbn in E. lia.
Qed.

(* ===================================================================== *)
(** * The embedding on the scenarios of the specification *)

(** Scenario A: backend unreachable. *)
Example scenario_unreachable :
  let r := selectModel downHost DEFAULTS (Some noHints) (newEngine DEFAULTS) in
  source (fst r) = fallback /\
  reason (fst r) = "Ollama is unreachable" /\
  model (fst r) = "anthropic/claude-sonnet-4-5" /\
  fallbackSelections (state (snd r)) = 1%N.
Proof. cbv zeta. repeat split. Qed.

(** Scenario C: VRAM at 0.9 of the total with threshold 0.85. *)
Example scenario_overloaded :
  let d := fst (selectModel hotHost DEFAULTS (Some complexHints) hotEngine) in
  isGpuOverloaded DEFAULTS (state hotEngine) = true /\
  source d = sidecar /\
  reason d = "GPU VRAM above 85% - routing to CPU sidecar".
Proof. cbv zeta. repeat split. Qed.

(** Scenario D: primary pulled and not loaded, complex request. *)
Example scenario_complex_request :
  let d := fst (selectModel coldHost DEFAULTS (Some complexHints) coldEngine) in
  source d = primary /\
  reason d = "Primary model available, loading for complex request" /\
  modelLoaded d = false.
Proof. cbv zeta. repeat split. Qed.

(** Scenario E: no model pulled. *)
Example scenario_nothing_pulled :
  let d := fst (selectModel emptyHost DEFAULTS (Some complexHints) emptyEngine) in
  source d = fallback /\ reason d = "No local models available".
Proof. cbv zeta. repeat split. Qed.

(** The staleness test is strict: with a 30 s interval, 60000 ms is fresh
    and 60001 ms is stale; with a NaN interval nothing is ever stale. *)
Example isStale_boundary :
  isStale DEFAULTS 60000 0 = false /\ isStale DEFAULTS 60001 0 = true.
Proof. split; reflexivity. Qed.

(** The overload test on degenerate readings: 0 MB of 0 MB is NaN and not
    overloaded, any use of 0 MB total is infinite and overloaded. *)
Example isGpuOverloaded_degenerate (s : RouterState) :
  isGpuOverloaded DEFAULTS (set_vramUsage (Some {| usedMB := 0; totalMB := 0 |}) s) = false /\
  isGpuOverloaded DEFAULTS (set_vramUsage (Some {| usedMB := 1; totalMB := 0 |}) s) = true.
Proof. split; reflexivity. Qed.

(** An empty [forceModel] is falsy: the call is routed like any other. *)
Example empty_forceModel_is_routed (host : Host) (config : PluginConfig) (m : Machine) :
  selectModel host config (Some forceEmpty) m
  = selectModel host config (Some noHints) m.
Proof. reflexivity. Qed.

(** When the three requests succeed the snapshot is the backend's answer. *)
Example checkHealth_success :
  let h := fst (checkHealth upHost (newEngine DEFAULTS)) in
  reachable h = true /\ version h = Some "0.5.7" /\
  pulledModels h = [deepseek; qwen] /\ runningModels h = [deepseekRunning].
Proof. cbv zeta. repeat split. Qed.

(* ===================================================================== *)
(** * Properties of the specification *)

(** C1. For a call without forced model, once the staleness guard has run
    and the backend is reachable, exactly one branch of the table [a]..[g]
    fires: the first one, in that order, whose condition holds; no branch
    after a matching one can fire; and the decision returned by
    [selectModel] is the one of that branch, with its source and reason. *)
Theorem selectModel_first_matching_branch
  (host : Host) (config : PluginConfig) (context : option Context) (m : Machine) :
  forced context = None ->
  let m1 := snd (ensureFresh host config m) in
  ollamaReachable (state m1) = true ->
  let f := factsOf config (state m1) context in
  let d := fst (selectModel host config context m) in
  exists b,
    fires f b /\
    (forall b', fires f b' -> b' = b) /\
    (forall b1 b2, matches f b1 = true -> rank b1 < rank b2 -> ~ fires f b2) /\
    selectModel host config context m
    = decideBy host config (branch_source b) (branch_reason host config f b) m1 /\
    source d = branch_source b /\
    reason d = branch_reason host config f b.
Proof.
  intros F m1 Hr f d.
  assert (E : selectModel host config context m
              = decideBy host config (branch_source (policyBranch f))
                  (branch_reason host config f (policyBranch f)) m1).
  { rewrite (selectModel_unforced host config context m F). fold m1.
    unfold selectRouted, bind, getState. cbn [fst snd]. rewrite Hr. cbn [negb].
    apply selectLocal_table. }
  exists (policyBranch f).
  split; [apply policyBranch_fires |].
  split; [intros b' Hb'; apply (fires_unique f b' _ Hb' (policyBranch_fires f)) |].
  split; [intros b1 b2 H1 L [_ H2]; rewrite (H2 b1 L) in H1; discriminate H1 |].
  split; [exact E |].
  unfold d. rewrite E. split; [apply decideBy_source | apply decideBy_reason].
Qed.

(** The theorem on a warm engine and a request without hints. *)
Lemma selectModel_first_matching_branch_witness :
  let m1 := snd (ensureFresh upHost DEFAULTS warmEngine) in
  let f := factsOf DEFAULTS (state m1) (Some noHints) in
  let d := fst (selectModel upHost DEFAULTS (Some noHints) warmEngine) in
  exists b,
    fires f b /\
    (forall b', fires f b' -> b' = b) /\
    (forall b1 b2, matches f b1 = true -> rank b1 < rank b2 -> ~ fires f b2) /\
    selectModel upHost DEFAULTS (Some noHints) warmEngine
    = decideBy upHost DEFAULTS (branch_source b) (branch_reason upHost DEFAULTS f b) m1 /\
    source d = branch_source b /\
    reason d = branch_reason upHost DEFAULTS f b.
Proof.
  apply (selectModel_first_matching_branch upHost DEFAULTS (Some noHints) warmEngine);
    reflexivity.
Defined.

(** C2, as the code has it. Every call of [selectModel] overwrites
    [lastDecision] with the decision it returns. A call without forced
    model adds one to [decisionsCount] and to the counter of the
    decision's source, and leaves the other two counters alone; a forced
    call leaves all four counters as they were. *)
Theorem selectModel_counts
  (host : Host) (config : PluginConfig) (context : option Context) (m : Machine) :
  let r := selectModel host config context m in
  lastDecision (state (snd r)) = Some (fst r) /\
  match forced context with
  | None => counted (source (fst r)) (state m) (state (snd r))
  | Some _ => sameCounters (state m) (state (snd r))
  end.
Proof.
  cbv zeta. split; [| apply selectModel_counters].
  destruct (forced context) as [x |] eqn:F.
  - rewrite (selectModel_forced host config context x m F). reflexivity.
  - rewrite (selectModel_unforced host config context m F).
    apply selectRouted_counted.
Qed.

(** C2 as stated fails on the forced branch: the call returns a decision
    of source primary and counts nothing. *)
Lemma forced_call_is_not_counted :
  let r := selectModel upHost DEFAULTS (Some forceX) warmEngine in
  source (fst r) = primary /\
  decisionsCount (state (snd r)) <> (decisionsCount (state warmEngine) + 1)%N /\
  primarySelections (state (snd r)) <> (primarySelections (state warmEngine) + 1)%N.
Proof. cbv zeta. repeat split; discriminate. Qed.

(** C3. Whatever the state of the engine (reachable or not, health data
    fresh or stale), a call with a forced model [x] returns a decision
    whose model is [x] itself and whose source is primary; the call runs no
    [refreshHealth], no [checkHealth], no request and no probe (the trace
    is unchanged), and the cached snapshot and the health fields of the
    router state are as before. *)
Theorem forced_override_bypasses_health
  (host : Host) (config : PluginConfig) (c : Context) (x : string) (m : Machine) :
  forceModel c = Some x ->
  x <> "" ->
  let r := selectModel host config (Some c) m in
  model (fst r) = x /\
  source (fst r) = primary /\
  trace (snd r) = trace m /\
  refreshes (trace (snd r)) = refreshes (trace m) /\
  healthUntouched m (snd r).
Proof.
  intros E N r. unfold r.
  rewrite (selectModel_forced host config (Some c) x m (forced_truthy c x E N)).
  repeat split.
Qed.

(** The theorem on a new engine whose backend is down. *)
Lemma forced_override_bypasses_health_witness :
  let r := selectModel downHost DEFAULTS (Some forceX) (newEngine DEFAULTS) in
  model (fst r) = "x" /\
  source (fst r) = primary /\
  trace (snd r) = trace (newEngine DEFAULTS) /\
  refreshes (trace (snd r)) = refreshes (trace (newEngine DEFAULTS)) /\
  healthUntouched (newEngine DEFAULTS) (snd r).
Proof.
  apply (forced_override_bypasses_health downHost DEFAULTS forceX
           "x" (newEngine DEFAULTS)).
  - reflexivity.
  - discriminate.
Defined.

(** C4. When one of the three requests of [checkHealth] fails (the fetch
    rejects, times out, answers with a non-2xx status or with an unreadable
    body), [checkHealth] returns, without raising, the snapshot it has just
    cached: not reachable, the pulled models of the previous snapshot, no
    running model, and a check time read from the clock during the call. *)
Theorem checkHealth_failure_snapshot (host : Host) (m : Machine) :
  fails (httpVersion host (tick m)) \/
  fails (httpTags host (S (tick m))) \/
  fails (httpPs host (S (S (tick m)))) ->
  let r := checkHealth host m in
  health (snd r) = fst r /\
  reachable (fst r) = false /\
  pulledModels (fst r) = pulledModels (health m) /\
  runningModels (fst r) = [] /\
  exists k, tick m < k <= tick m + 3 /\
            lastChecked (fst r) = dateNow host k /\ tick (snd r) = S k.
Proof.
  unfold fails, checkHealth, checkHealth_try, checkHealth_catch, fetchVersion,
    fetchTags, fetchPs, bindX, Date_now, bind, observe, emit, getHealth, putHealth, ret.
  cbn [fst snd tick health].
  intro H.
  destruct (fetchJson_result (httpVersion host (tick m))) as [e1 | v].
  { cbn [fst snd health reachable pulledModels runningModels lastChecked tick].
    do 4 (split; [reflexivity |]).
    exists (S (tick m)). split; [lia | split; reflexivity]. }
  cbn [fst snd tick health].
  destruct (fetchJson_result (httpTags host (S (tick m)))) as [e2 | t].
  { cbn [fst snd health reachable pulledModels runningModels lastChecked tick].
    do 4 (split; [reflexivity |]).
    exists (S (S (tick m))). split; [lia | split; reflexivity]. }
  cbn [fst snd tick health].
  destruct (fetchJson_result (httpPs host (S (S (tick m))))) as [e3 | p].
  { cbn [fst snd health reachable pulledModels runningModels lastChecked tick].
    do 4 (split; [reflexivity |]).
    exists (S (S (S (tick m)))). split; [lia | split; reflexivity]. }
  destruct H as [[] | [[] | []]].
Qed.

(** The theorem on a warm engine whose backend starts timing out. *)
Lemma checkHealth_failure_snapshot_witness :
  let r := checkHealth offlineGpuHost warmEngine in
  health (snd r) = fst r /\
  reachable (fst r) = false /\
  pulledModels (fst r) = [deepseek; qwen] /\
  runningModels (fst r) = [] /\
  exists k, tick warmEngine < k <= tick warmEngine + 3 /\
            lastChecked (fst r) = dateNow offlineGpuHost k /\ tick (snd r) = S k.
Proof.
  apply (checkHealth_failure_snapshot offlineGpuHost warmEngine).
  left. exact I.
Defined.

(** C5. A call without forced model whose clock reading is more than
    twice the health-check interval past [lastHealthCheck] runs
    [refreshHealth] exactly once, and computes its decision on the
    refreshed engine; otherwise it runs no [refreshHealth] and decides on
    the engine as it is. *)
Theorem staleness_guard_refreshes_once
  (host : Host) (config : PluginConfig) (context : option Context) (m : Machine) :
  forced context = None ->
  let now := dateNow host (tick m) in
  let m0 := snd (Date_now host m) in
  let r := selectModel host config context m in
  if isStale config now (lastHealthCheck (state m))
  then refreshes (trace (snd r)) = S (refreshes (trace m)) /\
       r = selectRouted host config context (snd (refreshHealth host config m0))
  else refreshes (trace (snd r)) = refreshes (trace m) /\
       r = selectRouted host config context m0.
Proof.
  intros F. cbv zeta.
  rewrite (selectModel_unforced host config context m F).
  unfold ensureFresh, Date_now, bind, observe, getState.
  cbn [fst snd state tick].
  set (m0 := {| health := health m; state := state m; tick := S (tick m);
                trace := trace m |}).
  destruct (isStale config (dateNow host (tick m)) (lastHealthCheck (state m))).
  - split; [| reflexivity].
    destruct (selectRouted_healthUntouched host config context
                (snd (refreshHealth host config m0))) as (_ & T & _).
    rewrite T, refreshHealth_refreshes. reflexivity.
  - split; [| reflexivity].
    destruct (selectRouted_healthUntouched host config context m0) as (_ & T & _).
    cbn [ret snd]. rewrite T. reflexivity.
Qed.

(** The theorem on a new engine: the first call is stale and refreshes. *)
Lemma staleness_guard_refreshes_once_witness :
  let m0 := snd (Date_now upHost (newEngine DEFAULTS)) in
  let r := selectModel upHost DEFAULTS (Some noHints) (newEngine DEFAULTS) in
  refreshes (trace (snd r)) = S (refreshes (trace (newEngine DEFAULTS))) /\
  r = selectRouted upHost DEFAULTS (Some noHints) (snd (refreshHealth upHost DEFAULTS m0)).
Proof.
  exact (staleness_guard_refreshes_once upHost DEFAULTS (Some noHints)
           (newEngine DEFAULTS) eq_refl).
Defined.

(** C6. Without a VRAM reading the overload test is false, whatever the
    GPU utilization and the threshold; with a reading it is the test
    [usedMB / totalMB >= gpuMemoryThreshold]. *)
Theorem isGpuOverloaded_fail_open (config : PluginConfig) (s : RouterState) :
  (vramUsage s = None -> isGpuOverloaded config s = false) /\
  (forall v, vramUsage s = Some v ->
             isGpuOverloaded config s
             = (gpuMemoryThreshold config <=? usedMB v / totalMB v)%float).
Proof.
  unfold isGpuOverloaded, js_ge.
  split; [intro E | intros v E]; rewrite E; reflexivity.
Qed.

(** The theorem without a reading (new engine) and with one (warm engine). *)
Lemma isGpuOverloaded_fail_open_witness :
  isGpuOverloaded DEFAULTS (state (newEngine DEFAULTS)) = false /\
  isGpuOverloaded DEFAULTS (state warmEngine) = false.
Proof.
  split.
  - apply (isGpuOverloaded_fail_open DEFAULTS (state (newEngine DEFAULTS))). reflexivity.
  - rewrite (proj2 (isGpuOverloaded_fail_open DEFAULTS (state warmEngine))
               {| usedMB := 4000; totalMB := 8000 |} eq_refl).
    reflexivity.
Defined.

(** C7. From a freshly constructed engine, after any sequence of
    [selectModel] calls (forced or not, with any hints) and [refreshHealth]
    calls, [decisionsCount] is the sum of the three selection counters;
    and whatever calls follow, none of the four counters goes down. *)
Theorem counters_add_up_and_grow
  (host : Host) (config : PluginConfig) (calls more : list Call) :
  let s := state (run host config calls (newEngine config)) in
  let s' := state (run host config (calls ++ more) (newEngine config)) in
  countersAddUp s /\ countersGrow s s'.
Proof.
  cbv zeta. split.
  - apply (run_counters host config calls (newEngine config)). reflexivity.
  - rewrite run_app. apply run_counters.
Qed.

(** C8, as the code has it. A call that passes a context object carrying
    neither [messageLength] nor [conversationDepth] is classified as
    simple, and [selectModel] treats it exactly as a call with both hints
    set to 0; this is the call the route method makes when its parameters
    are missing. A call that passes no context at all is classified as
    not simple. *)
Theorem hintless_context_is_simple
  (host : Host) (config : PluginConfig) (force : option string) (m : Machine) :
  let none := {| messageLength := None; conversationDepth := None;
                 forceModel := force |} in
  let zero := {| messageLength := Some 0%float; conversationDepth := Some 0%float;
                 forceModel := force |} in
  isSimpleRequest (Some none) = true /\
  isSimpleRequest (Some zero) = true /\
  selectModel host config (Some none) m = selectModel host config (Some zero) m /\
  routeMethod host config None m = selectModel host config (Some zeroHints) m /\
  isSimpleRequest None = false.
Proof.
  cbv zeta.
  split; [reflexivity |]. split; [reflexivity |].
  split; [| split; reflexivity].
  unfold selectModel. cbn [forced forceModel].
  destruct force as [x |]; [destruct (truthy x) |]; reflexivity.
Qed.

(** C8 as stated fails for a call without context: it supplies no hint
    and is not classified as simple, and on an engine with both models
    pulled and none loaded it gets the primary model where a call with
    both hints at 0 gets the sidecar. *)
Lemma call_without_context_is_not_simple :
  isSimpleRequest None = false /\
  isSimpleRequest (Some zeroHints) = true /\
  source (fst (selectModel coldHost DEFAULTS None coldEngine)) = primary /\
  source (fst (selectModel coldHost DEFAULTS (Some zeroHints) coldEngine)) = sidecar.
Proof. repeat split. Qed.

(** C9, as the code has it. With [s] the router state once the staleness
    guard has run: a decision of source primary or sidecar made without
    forced model carries the GPU utilization and the VRAM used and total
    of [s]; a fallback decision carries the GPU utilization of [s] and no
    VRAM field; a forced decision carries none of the three. *)
Theorem decision_readings
  (host : Host) (config : PluginConfig) (context : option Context) (m : Machine) :
  let d := fst (selectModel host config context m) in
  let s := state (snd (ensureFresh host config m)) in
  match forced context with
  | Some _ =>
      d_gpuUtilization d = None /\ vramUsedMB d = None /\ vramTotalMB d = None
  | None =>
      d_gpuUtilization d = gpuUtilization s /\
      match source d with
      | fallback => vramUsedMB d = None /\ vramTotalMB d = None
      | _ => vramUsedMB d = option_map usedMB (vramUsage s) /\
             vramTotalMB d = option_map totalMB (vramUsage s)
      end
  end.
Proof.
  cbv zeta. destruct (forced context) as [x |] eqn:F.
  - rewrite (selectModel_forced host config context x m F). repeat split.
  - rewrite (selectModel_unforced host config context m F).
    destruct (selectRouted_decideBy host config context
                (snd (ensureFresh host config m))) as (src & r & E).
    rewrite E, decideBy_source.
    destruct (decideBy_readings host config src r (snd (ensureFresh host config m)))
      as (G & U & T).
    split; [exact G |]. destruct src; split; assumption.
Qed.

(** C9 as stated fails on the forced branch and on the fallback branch:
    the engine holds a GPU utilization and a VRAM reading, the forced
    decision carries neither and the fallback decision no VRAM field. *)
Lemma forced_and_fallback_decisions_omit_readings :
  gpuUtilization (state warmEngine) = Some 40%float /\
  d_gpuUtilization (fst (selectModel upHost DEFAULTS (Some forceX) warmEngine)) = None /\
  vramUsage (state offlineEngine) = Some {| usedMB := 4000; totalMB := 8000 |} /\
  source (fst (selectModel offlineGpuHost DEFAULTS (Some noHints) offlineEngine))
  = fallback /\
  vramUsedMB (fst (selectModel offlineGpuHost DEFAULTS (Some noHints) offlineEngine))
  = None.
Proof. repeat split. Qed.

(** C10. The model of a decision is: the caller's string as it is when
    the call is forced; otherwise ["ollama/"] followed by the configured
    primary or sidecar name for a primary or sidecar decision, and the
    configured fallback model, or ["anthropic/claude-sonnet-4-5"] when
    none is configured, with nothing put before it, for a fallback
    decision. So forcing the configured primary name and being routed to
    the primary model give two different strings. *)
Theorem decision_model_names
  (host : Host) (config : PluginConfig) (context : option Context) (m : Machine) :
  let d := fst (selectModel host config context m) in
  model d
  = match forced context with
    | Some x => x
    | None =>
        match source d with
        | primary => "ollama/" ++ primaryModel config
        | sidecar => "ollama/" ++ sidecarModel config
        | fallback => nullish (fallbackModel config) "anthropic/claude-sonnet-4-5"
        end
    end /\
  forall (context' : option Context) (m' : Machine),
    forced context = None ->
    source d = primary ->
    forced context' = Some (primaryModel config) ->
    model (fst (selectModel host config context' m')) <> model d.
Proof.
  cbv zeta.
  assert (A : forall c mm,
             model (fst (selectModel host config c mm))
             = match forced c with
               | Some x => x
               | None =>
                   match source (fst (selectModel host config c mm)) with
                   | primary => "ollama/" ++ primaryModel config
                   | sidecar => "ollama/" ++ sidecarModel config
                   | fallback =>
                       nullish (fallbackModel config) "anthropic/claude-sonnet-4-5"
                   end
               end).
  { intros c mm. destruct (forced c) as [x |] eqn:F.
    - rewrite (selectModel_forced host config c x mm F). reflexivity.
    - rewrite (selectModel_unforced host config c mm F).
      destruct (selectRouted_decideBy host config c (snd (ensureFresh host config mm)))
        as (src & r & E).
      rewrite E, decideBy_source. apply decideBy_model. }
  split; [apply A |].
  intros context' m' F S F'.
  rewrite (A context' m'), (A context m), F, F', S.
  intro E. symmetry in E. exact (ollama_prefix_changes _ E).
Qed.

(** The theorem on a warm engine: forced and routed primary differ. *)
Lemma decision_model_names_witness :
  model (fst (selectModel upHost DEFAULTS (Some forcePrimary) warmEngine))
  <> model (fst (selectModel upHost DEFAULTS (Some noHints) warmEngine)).
Proof.
  apply (proj2 (decision_model_names upHost DEFAULTS (Some noHints) warmEngine)
           (Some forcePrimary) warmEngine); reflexivity.
Defined.

(* ===================================================================== *)
(** * Comparisons of binary64 numbers *)

Lemma Prim2SF_nan : Prim2SF nan = S754_nan.
Proof. reflexivity. Qed.

Lemma SFcompare_nan_r (x : spec_float) : SFcompare x S754_nan = None.
Proof. destruct x; reflexivity. Qed.

Lemma ltb_nan_l (x : float) : (nan <? x)%float = false.
Proof. rewrite ltb_spec, Prim2SF_nan. reflexivity. Qed.

Lemma ltb_nan_r (x : float) : (x <? nan)%float = false.
Proof.
  rewrite ltb_spec, Prim2SF_nan. unfold SFltb. rewrite SFcompare_nan_r. reflexivity.
Qed.

Lemma leb_nan_l (x : float) : (nan <=? x)%float = false.
Proof. rewrite leb_spec, Prim2SF_nan. reflexivity. Qed.

Lemma SFcompare_antisym (x y : spec_float) :
  SFcompare y x = option_map CompOpp (SFcompare x y).
Proof.
  destruct x as [sx | sx | | sx mx ex], y as [sy | sy | | sy my ey];
    try reflexivity; cbn [SFcompare option_map];
    try (destruct sx; reflexivity); try (destruct sy; reflexivity);
    try (destruct sx, sy; reflexivity).
  destruct sx, sy; try reflexivity; f_equal;
    rewrite (Z.compare_antisym ex ey);
    destruct (Z.compare ex ey) eqn:E; cbn [CompOpp]; try reflexivity;
    rewrite (Pos.compare_cont_antisym mx my Eq); cbn [CompOpp];
    try rewrite CompOpp_involutive; reflexivity.
Qed.

Lemma ltb_asym (x y : float) : (x <? y)%float = true -> (y <? x)%float = false.
Proof.
  rewrite !ltb_spec. unfold SFltb. rewrite (SFcompare_antisym (Prim2SF x) (Prim2SF y)).
  destruct (SFcompare (Prim2SF x) (Prim2SF y)) as [[] |]; cbn; congruence.
Qed.

(** [Math.min(a, 1)] is never above 1. *)
Lemma Math_min_one (a : float) : (1 <? Math_min a 1)%float = false.
Proof.
  unfold Math_min.
  destruct (PrimFloat.is_nan a || PrimFloat.is_nan 1); [reflexivity |].
  destruct (a <? 1)%float eqn:L; [apply ltb_asym, L |].
  destruct (1 <? a)%float eqn:G; [reflexivity |].
  destruct (PrimFloat.get_sign a); [exact G | reflexivity].
Qed.

(* ===================================================================== *)
(** * The client: queries on the cached snapshot *)

Lemma existsb_find {A : Type} (p : A -> bool) (l : list A) :
  existsb p l = match find p l with Some _ => true | None => false end.
Proof.
  induction l as [| a l IH]; cbn [existsb find]; [reflexivity |].
  destruct (p a); [reflexivity | exact IH].
Qed.

(** What [checkHealth] leaves in the cache, by the outcome of its three
    requests. *)
Lemma checkHealth_health (host : Host) (m : Machine) :
  health (snd (checkHealth host m))
  = match fetchJson_result (httpVersion host (tick m)) with
    | inl _ => failedSnapshot (health m) (dateNow host (S (tick m)))
    | inr v =>
        match fetchJson_result (httpTags host (S (tick m))) with
        | inl _ => failedSnapshot (health m) (dateNow host (S (S (tick m))))
        | inr t =>
            match fetchJson_result (httpPs host (S (S (tick m)))) with
            | inl _ => failedSnapshot (health m) (dateNow host (S (S (S (tick m)))))
            | inr p =>
                {| reachable := true;
                   version := Some (vd_version v);
                   pulledModels := nullish (td_models t) [];
                   runningModels := nullish (pd_models p) [];
                   lastChecked := dateNow host (S (S (S (tick m)))) |}
            end
        end
    end.
Proof.
  unfold checkHealth, checkHealth_try, checkHealth_catch, fetchVersion, fetchTags,
    fetchPs, bindX, Date_now, bind, observe, emit, getHealth, putHealth, ret.
  cbn [fst snd tick health].
  destruct (fetchJson_result (httpVersion host (tick m))); [reflexivity |].
  cbn [fst snd tick health].
  destruct (fetchJson_result (httpTags host (S (tick m)))); [reflexivity |].
  cbn [fst snd tick health].
  destruct (fetchJson_result (httpPs host (S (S (tick m))))); reflexivity.
Qed.

(** [checkHealth] returns the snapshot it has cached. *)
Lemma checkHealth_returns_cache (host : Host) (m : Machine) :
  fst (checkHealth host m) = health (snd (checkHealth host m)).
Proof. reflexivity. Qed.

Lemma failing_checkHealth_health (host : Host) (m : Machine) :
  fails (httpVersion host (tick m)) \/
  fails (httpTags host (S (tick m))) \/
  fails (httpPs host (S (S (tick m)))) ->
  exists now, health (snd (checkHealth host m)) = failedSnapshot (health m) now.
Proof.
  unfold fails. intro H. rewrite checkHealth_health.
  destruct (fetchJson_result (httpVersion host (tick m))); [eauto |].
  destruct (fetchJson_result (httpTags host (S (tick m)))); [eauto |].
  destruct (fetchJson_result (httpPs host (S (S (tick m))))); [eauto |].
  destruct H as [[] | [[] | []]].
Qed.

(** X1. The status [getModelStatus] derives for a name says pulled exactly
    when [isModelPulled] does and loaded exactly when [isModelLoaded]
    does, carries the name it was asked for, and none of the three
    queries changes the engine. *)
Theorem getModelStatus_agrees_with_queries (modelName : string) (m : Machine) :
  let st := fst (getModelStatus modelName m) in
  ms_name st = modelName /\
  pulled st = fst (isModelPulled modelName m) /\
  loaded st = fst (isModelLoaded modelName m) /\
  snd (getModelStatus modelName m) = m /\
  snd (isModelPulled modelName m) = m /\
  snd (isModelLoaded modelName m) = m.
Proof.
  cbv zeta. unfold getModelStatus, isModelPulled, isModelLoaded, bind, getHealth, ret.
  cbn [fst snd]. unfold modelStatusOf. cbn [ms_name pulled loaded].
  rewrite !existsb_find. repeat split.
Qed.

(** X2. For a name that matches no pulled and no running model,
    [getModelStatus] returns the status with both flags false, both sizes
    0 and no optional field. *)
Theorem getModelStatus_unknown_model (modelName : string) (m : Machine) :
  fst (isModelPulled modelName m) = false ->
  fst (isModelLoaded modelName m) = false ->
  fst (getModelStatus modelName m) = unknownStatus modelName.
Proof.
  unfold getModelStatus, isModelPulled, isModelLoaded, bind, getHealth, ret.
  cbn [fst snd]. rewrite !existsb_find. unfold modelStatusOf, unknownStatus.
  destruct (find (matchesPulled modelName) (pulledModels (health m)));
    [discriminate |].
  destruct (find (matchesRunning modelName) (runningModels (health m)));
    [discriminate |].
  reflexivity.
Qed.

(** The theorem on a warm engine and a model the backend does not have. *)
Lemma getModelStatus_unknown_model_witness :
  fst (getModelStatus "llama3:8b" warmEngine) = unknownStatus "llama3:8b".
Proof.
  apply (getModelStatus_unknown_model "llama3:8b" warmEngine); reflexivity.
Defined.

(** X3. The snapshot [checkHealth] returns is reachable exactly when the
    version, tags and ps requests all succeed, and then it is the
    backend's answer: its version, its pulled models and its running
    models (an absent list read as empty), stamped with the clock. *)
Theorem checkHealth_reachable_iff (host : Host) (m : Machine) :
  let h := fst (checkHealth host m) in
  reachable h = true <->
  exists v t p,
    fetchJson_result (httpVersion host (tick m)) = inr v /\
    fetchJson_result (httpTags host (S (tick m))) = inr t /\
    fetchJson_result (httpPs host (S (S (tick m)))) = inr p /\
    h = {| reachable := true;
           version := Some (vd_version v);
           pulledModels := nullish (td_models t) [];
           runningModels := nullish (pd_models p) [];
           lastChecked := dateNow host (S (S (S (tick m)))) |}.
Proof.
  cbv zeta. rewrite checkHealth_returns_cache, checkHealth_health.
  destruct (fetchJson_result (httpVersion host (tick m))) as [e1 | v].
  { split; [discriminate | intros (v & t & p & E & _); discriminate E]. }
  destruct (fetchJson_result (httpTags host (S (tick m)))) as [e2 | t].
  { split; [discriminate | intros (v' & t & p & _ & E & _); discriminate E]. }
  destruct (fetchJson_result (httpPs host (S (S (tick m))))) as [e3 | p].
  { split; [discriminate | intros (v' & t' & p & _ & _ & E & _); discriminate E]. }
  split; [| reflexivity]. intros _. exists v, t, p. repeat split.
Qed.

(** X4. After a [checkHealth] of which a request failed, the cache holds
    no version, no model is loaded and the VRAM total is 0 over 0 models,
    while every model is pulled exactly if it was before; the derived
    status is unloaded with no VRAM and no expiry. *)
Theorem failed_checkHealth_unloads_models
  (host : Host) (m : Machine) (modelName : string) :
  fails (httpVersion host (tick m)) \/
  fails (httpTags host (S (tick m))) \/
  fails (httpPs host (S (S (tick m)))) ->
  let m' := snd (checkHealth host m) in
  version (health m') = None /\
  fst (isModelLoaded modelName m') = false /\
  fst (isModelPulled modelName m') = fst (isModelPulled modelName m) /\
  fst (getTotalVramUsage m') = {| totalVram := 0; modelCount := 0 |} /\
  loaded (fst (getModelStatus modelName m')) = false /\
  vramBytes (fst (getModelStatus modelName m')) = 0%float /\
  expiresAt (fst (getModelStatus modelName m')) = None /\
  pulled (fst (getModelStatus modelName m')) = pulled (fst (getModelStatus modelName m)).
Proof.
  intros H m'. destruct (failing_checkHealth_health host m H) as [now E].
  unfold isModelLoaded, isModelPulled, getTotalVramUsage, getModelStatus, bind,
    getHealth, ret. cbn [fst snd]. unfold modelStatusOf.
  cbn [loaded vramBytes expiresAt pulled]. fold m'.
  change (health (snd (checkHealth host m))) with (health m') in E.
  rewrite E. repeat split.
Qed.

(** The theorem on a warm engine whose backend starts timing out. *)
Lemma failed_checkHealth_unloads_models_witness :
  let m' := snd (checkHealth offlineGpuHost warmEngine) in
  version (health m') = None /\
  fst (isModelLoaded "deepseek-coder-v2:16b" m') = false /\
  fst (isModelPulled "deepseek-coder-v2:16b" m') = true /\
  fst (getTotalVramUsage m') = {| totalVram := 0; modelCount := 0 |} /\
  loaded (fst (getModelStatus "deepseek-coder-v2:16b" m')) = false /\
  vramBytes (fst (getModelStatus "deepseek-coder-v2:16b" m')) = 0%float /\
  expiresAt (fst (getModelStatus "deepseek-coder-v2:16b" m')) = None /\
  pulled (fst (getModelStatus "deepseek-coder-v2:16b" m')) = true.
Proof.
  apply (failed_checkHealth_unloads_models offlineGpuHost warmEngine
           "deepseek-coder-v2:16b").
  left. exact I.
Defined.

(** X5. Whatever the snapshot and the capacity given, the load
    [estimateGpuLoad] returns is never above 1, and the call leaves the
    engine as it is. *)
Theorem estimateGpuLoad_at_most_one (gpuVramBytes : float) (m : Machine) :
  (1 <? fst (estimateGpuLoad gpuVramBytes m))%float = false /\
  snd (estimateGpuLoad gpuVramBytes m) = m.
Proof.
  unfold estimateGpuLoad.
  destruct (gpuVramBytes <=? 0)%float; [split; reflexivity |].
  unfold bind, getTotalVramUsage, getHealth, ret. cbn [fst snd totalVram].
  split; [apply Math_min_one | reflexivity].
Qed.

Lemma stripTrailingSlash_cons (c c' : ascii) (rest : string) :
  stripTrailingSlash (String c (String c' rest))
  = String c (stripTrailingSlash (String c' rest)).
Proof. reflexivity. Qed.

Lemma endsWithSlash_cons (c c' : ascii) (rest : string) :
  endsWithSlash (String c (String c' rest)) = endsWithSlash (String c' rest).
Proof. reflexivity. Qed.

(** X6. The client's host is the configured one without one trailing
    slash: a host written with the slash and the same host written
    without it give the same endpoint URLs. *)
Theorem clientHost_strips_one_slash (h : string) :
  clientHost (h ++ "/") = h /\
  (if endsWithSlash h then clientHost h ++ "/" = h else clientHost h = h) /\
  forall path, endpointUrl (h ++ "/") path = h ++ path.
Proof.
  assert (A : clientHost (h ++ "/") = h).
  { unfold clientHost. induction h as [| c rest IH]; [reflexivity |].
    cbn [append stripTrailingSlash]. rewrite IH.
    destruct rest; reflexivity. }
  split; [exact A |]. split; [| intro path; unfold endpointUrl; rewrite A; reflexivity].
  clear A. unfold clientHost. induction h as [| c rest IH]; [reflexivity |].
  destruct rest as [| c' rest'].
  - cbn [endsWithSlash stripTrailingSlash].
    destruct (Ascii.eqb_spec c "/"%char) as [-> | N]; reflexivity.
  - rewrite stripTrailingSlash_cons, endsWithSlash_cons.
    destruct (endsWithSlash (String c' rest')).
    + cbn [append]. f_equal. exact IH.
    + f_equal. exact IH.
Qed.

(* ===================================================================== *)
(** * The router: further properties of refreshHealth and selectModel *)

Section RouterMore.

Variable host : Host.
Variable config : PluginConfig.

(** [refreshHealth] stores the verdict and the statuses of the snapshot
    its [checkHealth] has just cached. *)
Lemma refreshHealth_inSync (m : Machine) :
  inSync config (snd (refreshHealth host config m)).
Proof. repeat split. Qed.

Lemma refreshHealth_health (m : Machine) :
  health (snd (refreshHealth host config m))
  = health (snd (checkHealth host
                   {| health := health m; state := state m; tick := tick m;
                      trace := EvRefreshHealth :: trace m |})).
Proof. reflexivity. Qed.

Lemma inSync_untouched (m m' : Machine) :
  healthUntouched m m' -> inSync config m -> inSync config m'.
Proof.
  intros (H & _ & R & _ & P & S & _) (I1 & I2 & I3).
  unfold inSync. rewrite H, R, P, S. repeat split; assumption.
Qed.

Lemma ensureFresh_inSync (m : Machine) :
  inSync config m -> inSync config (snd (ensureFresh host config m)).
Proof.
  intro I. unfold ensureFresh, Date_now, bind, observe, getState.
  cbn [fst snd state tick].
  destruct (isStale _ _ _); [apply refreshHealth_inSync | exact I].
Qed.

Lemma selectModel_inSync (context : option Context) (m : Machine) :
  inSync config m -> inSync config (snd (selectModel host config context m)).
Proof.
  intro I. destruct (forced context) as [x |] eqn:F.
  - rewrite (selectModel_forced host config context x m F).
    apply (inSync_untouched m); [repeat split | exact I].
  - rewrite (selectModel_unforced host config context m F).
    eapply inSync_untouched; [apply selectRouted_healthUntouched |].
    apply ensureFresh_inSync, I.
Qed.

Lemma run_inSync (calls : list Call) (m : Machine) :
  inSync config m -> inSync config (run host config calls m).
Proof.
  revert m. induction calls as [| c calls IH]; intros m I; [exact I |].
  cbn [run fold_left]. apply IH. destruct c as [context |]; cbn [call].
  - apply selectModel_inSync, I.
  - apply refreshHealth_inSync.
Qed.

(** What the policy table's branch says about the pulled flags. *)
Lemma policyBranch_pulled (f : Facts) :
  match branch_source (policyBranch f) with
  | primary => primaryPulled f = true
  | sidecar => sidecarPulled f = true
  | fallback => primaryPulled f = false /\ sidecarPulled f = false
  end.
Proof.
  destruct (policyBranch_fires f) as [M E].
  destruct (policyBranch f); cbn [branch_source matches] in *.
  - apply andb_prop in M. destruct M as [M _]. apply andb_prop in M. apply M.
  - apply andb_prop in M. destruct M as [M _]. apply andb_prop in M. apply M.
  - apply andb_prop in M. apply M.
  - apply andb_prop in M. apply M.
  - exact M.
  - exact M.
  - split.
    + apply (E Branch_e). cbn [rank]. lia.
    + apply (E Branch_f). cbn [rank]. lia.
Qed.

(** The decision of [selectRouted], by the reachability flag. *)
Lemma selectRouted_cases (context : option Context) (m : Machine) :
  selectRouted host config context m
  = if ollamaReachable (state m)
    then let f := factsOf config (state m) context in
         decideBy host config (branch_source (policyBranch f))
           (branch_reason host config f (policyBranch f)) m
    else decideBy host config fallback "Ollama is unreachable" m.
Proof.
  unfold selectRouted, bind, getState. cbn [fst snd].
  destruct (ollamaReachable (state m)); cbn [negb]; [apply selectLocal_table | reflexivity].
Qed.

End RouterMore.

(** X7. On an engine used through [selectModel] and [refreshHealth] only,
    from its construction on, the router's reachability flag and its two
    model statuses are always the ones derived from the client's cached
    snapshot. *)
Theorem router_state_in_sync_with_snapshot
  (host : Host) (config : PluginConfig) (calls : list Call) :
  inSync config (run host config calls (newEngine config)).
Proof.
  apply run_inSync. repeat split.
Qed.

(** X8. A decision made without forced model names a local model only if
    the backend was reachable and that model pulled, by the state the
    decision was made on; and it falls back only if the backend was not
    reachable or neither model was pulled. *)
Theorem routed_decision_names_pulled_model
  (host : Host) (config : PluginConfig) (context : option Context) (m : Machine) :
  forced context = None ->
  let d := fst (selectModel host config context m) in
  let s := state (snd (ensureFresh host config m)) in
  match source d with
  | primary => ollamaReachable s = true /\ pulled (primaryStatus s) = true
  | sidecar => ollamaReachable s = true /\ pulled (sidecarStatus s) = true
  | fallback =>
      ollamaReachable s = false \/
      (pulled (primaryStatus s) = false /\ pulled (sidecarStatus s) = false)
  end.
Proof.
  intros F. cbv zeta.
  rewrite (selectModel_unforced host config context m F), selectRouted_cases.
  set (m1 := snd (ensureFresh host config m)).
  destruct (ollamaReachable (state m1)).
  - cbv zeta. rewrite decideBy_source.
    pose proof (policyBranch_pulled (factsOf config (state m1) context)) as P.
    destruct (branch_source (policyBranch (factsOf config (state m1) context)));
      cbn [factsOf primaryPulled sidecarPulled] in P; auto.
  - rewrite decideBy_source. left. reflexivity.
Qed.

(** The theorem on a warm engine and a request without hints. *)
Lemma routed_decision_names_pulled_model_witness :
  ollamaReachable (state (snd (ensureFresh upHost DEFAULTS warmEngine))) = true /\
  pulled (primaryStatus (state (snd (ensureFresh upHost DEFAULTS warmEngine)))) = true.
Proof.
  exact (routed_decision_names_pulled_model upHost DEFAULTS (Some noHints) warmEngine
           eq_refl).
Defined.

(** X9. When the backend is reachable and the GPU overloaded, the hints
    play no part: the decision is the sidecar, with the reason that cites
    the threshold, if the sidecar is pulled; else the primary with partial
    offload if it is pulled; else the fallback. *)
Theorem overloaded_gpu_routes_by_pulled_flags
  (host : Host) (config : PluginConfig) (context : option Context) (m : Machine) :
  forced context = None ->
  let d := fst (selectModel host config context m) in
  let s := state (snd (ensureFresh host config m)) in
  ollamaReachable s = true ->
  isGpuOverloaded config s = true ->
  if pulled (sidecarStatus s)
  then source d = sidecar /\
       reason d = "GPU VRAM above "
                  ++ toFixed0 host (gpuMemoryThreshold config * 100)%float
                  ++ "% - routing to CPU sidecar"
  else if pulled (primaryStatus s)
  then source d = primary /\
       reason d = "Primary model available with partial GPU offload"
  else source d = fallback /\ reason d = "No local models available".
Proof.
  intros F. cbv zeta.
  rewrite (selectModel_unforced host config context m F), selectRouted_cases.
  set (m1 := snd (ensureFresh host config m)). intros R O. rewrite R. cbv zeta.
  rewrite decideBy_source, decideBy_reason.
  unfold policyBranch, firstMatch, branches, factsOf.
  cbn [find matches primaryPulled primaryLoaded sidecarPulled sidecarLoaded
       overloaded simple].
  rewrite O.
  destruct (pulled (primaryStatus (state m1))), (loaded (primaryStatus (state m1))),
    (pulled (sidecarStatus (state m1))), (loaded (sidecarStatus (state m1))),
    (isSimpleRequest context); split; reflexivity.
Qed.

(** The theorem on an engine whose GPU holds 7200 of 8000 MB. *)
Lemma overloaded_gpu_routes_by_pulled_flags_witness :
  source (fst (selectModel hotHost DEFAULTS (Some complexHints) hotEngine)) = sidecar /\
  reason (fst (selectModel hotHost DEFAULTS (Some complexHints) hotEngine))
  = "GPU VRAM above 85% - routing to CPU sidecar".
Proof.
  exact (overloaded_gpu_routes_by_pulled_flags hotHost DEFAULTS (Some complexHints)
           hotEngine eq_refl eq_refl eq_refl).
Defined.

(** X10. A call without forced model that finds the health data stale
    while a request of the health check fails ends in the fallback: source
    fallback, reason unreachable, the configured fallback model or the
    built-in one, one more fallback selection, and a cache that says
    unreachable, whatever was cached before. *)
Theorem stale_call_with_backend_down_falls_back
  (host : Host) (config : PluginConfig) (context : option Context) (m : Machine) :
  forced context = None ->
  isStale config (dateNow host (tick m)) (lastHealthCheck (state m)) = true ->
  fails (httpVersion host (S (tick m))) \/
  fails (httpTags host (S (S (tick m)))) \/
  fails (httpPs host (S (S (S (tick m))))) ->
  let r := selectModel host config context m in
  source (fst r) = fallback /\
  reason (fst r) = "Ollama is unreachable" /\
  model (fst r) = nullish (fallbackModel config) "anthropic/claude-sonnet-4-5" /\
  reachable (health (snd r)) = false /\
  fallbackSelections (state (snd r)) = (fallbackSelections (state m) + 1)%N.
Proof.
  intros F St H. cbv zeta.
  rewrite (selectModel_unforced host config context m F), selectRouted_cases.
  unfold ensureFresh, Date_now, bind, observe, getState. cbn [fst snd state tick].
  rewrite St.
  set (m0 := {| health := health m; state := state m; tick := S (tick m);
                trace := trace m |}).
  set (m1 := snd (refreshHealth host config m0)).
  destruct (refreshHealth_inSync host config m0) as (R & _). fold m1 in R.
  assert (E : reachable (health m1) = false).
  { unfold m1. rewrite refreshHealth_health.
    destruct (failing_checkHealth_health host
                {| health := health m0; state := state m0; tick := tick m0;
                   trace := EvRefreshHealth :: trace m0 |} H) as [now ->].
    reflexivity. }
  rewrite R, E.
  destruct (refreshHealth_sameCounters host config m0) as (_ & _ & _ & C).
  fold m1 in C. cbn [state m0] in C.
  destruct (decideBy_counted host config fallback "Ollama is unreachable" m1)
    as (_ & K & _).
  cbn [selections] in K. rewrite K, C.
  rewrite decideBy_source, decideBy_reason, decideBy_model.
  destruct (decideBy_healthUntouched host config fallback "Ollama is unreachable" m1)
    as (U & _).
  rewrite U. repeat split. exact E.
Qed.

(** The theorem on a new engine whose backend is down. *)
Lemma stale_call_with_backend_down_falls_back_witness :
  let r := selectModel downHost DEFAULTS (Some complexHints) (newEngine DEFAULTS) in
  source (fst r) = fallback /\
  reason (fst r) = "Ollama is unreachable" /\
  model (fst r) = "anthropic/claude-sonnet-4-5" /\
  reachable (health (snd r)) = false /\
  fallbackSelections (state (snd r)) = 1%N.
Proof.
  apply (stale_call_with_backend_down_falls_back downHost DEFAULTS (Some complexHints)
           (newEngine DEFAULTS)).
  - reflexivity.
  - reflexivity.
  - left. exact I.
Defined.

(* ===================================================================== *)
(** * The configuration resolver, alone and with the router *)

Lemma routed_model
  (host : Host) (config : PluginConfig) (context : option Context) (m : Machine) :
  forced context = None ->
  model (fst (selectModel host config context m))
  = match source (fst (selectModel host config context m)) with
    | primary => "ollama/" ++ primaryModel config
    | sidecar => "ollama/" ++ sidecarModel config
    | fallback => nullish (fallbackModel config) "anthropic/claude-sonnet-4-5"
    end.
Proof.
  intro F. rewrite (selectModel_unforced host config context m F).
  destruct (selectRouted_decideBy host config context (snd (ensureFresh host config m)))
    as (src & r & E).
  rewrite E, decideBy_source. apply decideBy_model.
Qed.

Lemma isStale_nan (config : PluginConfig) (now last : float) :
  healthCheckIntervalSec config = nan -> isStale config now last = false.
Proof.
  intro E. unfold isStale, js_gt. rewrite E.
  change (nan * 1000 * 2)%float with nan. apply ltb_nan_l.
Qed.

Lemma selectModel_fresh_trace
  (host : Host) (config : PluginConfig) (context : option Context) (m : Machine) :
  isStale config (dateNow host (tick m)) (lastHealthCheck (state m)) = false ->
  trace (snd (selectModel host config context m)) = trace m.
Proof.
  intro St. destruct (forced context) as [x |] eqn:F.
  - rewrite (selectModel_forced host config context x m F). reflexivity.
  - rewrite (selectModel_unforced host config context m F).
    destruct (selectRouted_healthUntouched host config context
                (snd (ensureFresh host config m))) as (_ & T & _).
    rewrite T. unfold ensureFresh, Date_now, bind, observe, getState.
    cbn [fst snd state tick]. rewrite St. reflexivity.
Qed.

(** X11. A raw configuration whose [healthCheckIntervalSec] is NaN is
    accepted as it is, and with the configuration resolved from it no
    call of [selectModel], however old the health data, runs
    [refreshHealth], [checkHealth], a request or a probe. *)
Theorem nan_interval_disables_staleness_refresh
  (host : Host) (raw : RawConfig) (context : option Context) (m : Machine) :
  raw "healthCheckIntervalSec" = RawNumber nan ->
  let config := resolvePluginConfig (Some raw) in
  healthCheckIntervalSec config = nan /\
  trace (snd (selectModel host config context m)) = trace m /\
  health (snd (selectModel host config context m)) = health m.
Proof.
  intros E config.
  assert (N : healthCheckIntervalSec config = nan).
  { unfold config, resolvePluginConfig. cbn [healthCheckIntervalSec]. rewrite E.
    reflexivity. }
  split; [exact N |].
  split; [apply selectModel_fresh_trace, isStale_nan, N |].
  destruct (forced context) as [x |] eqn:F.
  - rewrite (selectModel_forced host config context x m F). reflexivity.
  - rewrite (selectModel_unforced host config context m F).
    destruct (selectRouted_healthUntouched host config context
                (snd (ensureFresh host config m))) as (H & _).
    rewrite H. unfold ensureFresh, Date_now, bind, observe, getState.
    cbn [fst snd state tick]. rewrite (isStale_nan config _ _ N). reflexivity.
Qed.

(** The theorem on a new engine, whose health data was never fetched. *)
Lemma nan_interval_disables_staleness_refresh_witness :
  let config := resolvePluginConfig (Some nanIntervalRaw) in
  healthCheckIntervalSec config = nan /\
  trace (snd (selectModel upHost config (Some noHints) (newEngine config))) = [] /\
  health (snd (selectModel upHost config (Some noHints) (newEngine config)))
  = initialHealth.
Proof.
  apply (nan_interval_disables_staleness_refresh upHost nanIntervalRaw (Some noHints)
           (newEngine (resolvePluginConfig (Some nanIntervalRaw)))).
  reflexivity.
Defined.

(** X12. A raw configuration whose [gpuMemoryThreshold] is NaN is
    accepted as it is, and with the configuration resolved from it the
    GPU is never found overloaded, whatever the VRAM reading. *)
Theorem nan_threshold_disables_overload_test (raw : RawConfig) (s : RouterState) :
  raw "gpuMemoryThreshold" = RawNumber nan ->
  isGpuOverloaded (resolvePluginConfig (Some raw)) s = false.
Proof.
  intro E. unfold isGpuOverloaded, js_ge, resolvePluginConfig.
  cbn [gpuMemoryThreshold]. rewrite E. cbn [numberOr].
  destruct (vramUsage s); [apply leb_nan_l | reflexivity].
Qed.

(** The theorem on an engine whose GPU holds 7200 of 8000 MB. *)
Lemma nan_threshold_disables_overload_test_witness :
  isGpuOverloaded (resolvePluginConfig (Some nanThresholdRaw)) (state hotEngine) = false.
Proof.
  apply (nan_threshold_disables_overload_test nanThresholdRaw (state hotEngine)).
  reflexivity.
Defined.

(** X13. Resolving a configuration object that is already a
    [PluginConfig] gives that configuration back, field by field: the
    resolver changes nothing that is well-typed, and it is idempotent. *)
Theorem resolvePluginConfig_round_trip (c : PluginConfig) :
  resolvePluginConfig (Some (rawOfConfig c)) = c.
Proof.
  destruct c as [h p s f k g i pre auto_ dash].
  unfold resolvePluginConfig, rawOfConfig.
  cbn [String.eqb Ascii.eqb Bool.eqb ollamaHost primaryModel sidecarModel fallbackModel
       keepAliveMinutes gpuMemoryThreshold healthCheckIntervalSec preloadOnStart
       autoRoute dashboardEnabled stringOr numberOr booleanOr].
  destruct f; reflexivity.
Qed.

(** X14. The resolved configuration depends on the raw object through
    its ten known keys only: two raw objects that agree on them resolve
    to the same configuration, whatever other keys they carry. *)
Theorem resolvePluginConfig_reads_ten_keys (raw raw' : RawConfig) :
  (forall key, In key configKeys -> raw key = raw' key) ->
  resolvePluginConfig (Some raw) = resolvePluginConfig (Some raw').
Proof.
  intro H. unfold resolvePluginConfig.
  rewrite !(H _) by (cbn [In configKeys]; tauto).
  reflexivity.
Qed.

(** The theorem on an empty object and an object with a stray key; both
    resolve to the defaults, as no object at all does. *)
Lemma resolvePluginConfig_reads_ten_keys_witness :
  resolvePluginConfig (Some strayRaw) = resolvePluginConfig (Some emptyRaw) /\
  resolvePluginConfig (Some emptyRaw) = resolvePluginConfig None.
Proof.
  split; [| reflexivity].
  apply (resolvePluginConfig_reads_ten_keys strayRaw emptyRaw).
  intros key H. cbn [In configKeys] in H.
  repeat (destruct H as [<- | H]; [reflexivity |]). contradiction H.
Defined.

(** X15. With a raw configuration that sets no string [fallbackModel]
    (or with no raw configuration), every fallback decision of
    [selectModel] names the built-in remote model. *)
Theorem unset_fallbackModel_uses_builtin
  (host : Host) (raw : option RawConfig) (context : option Context) (m : Machine) :
  (forall r s, raw = Some r -> r "fallbackModel" <> RawString s) ->
  let config := resolvePluginConfig raw in
  let d := fst (selectModel host config context m) in
  forced context = None ->
  source d = fallback ->
  model d = "anthropic/claude-sonnet-4-5".
Proof.
  intros H config d F S. unfold d.
  rewrite (routed_model host config context m F). fold d. rewrite S.
  assert (N : fallbackModel config = None).
  { unfold config, resolvePluginConfig. destruct raw as [r |]; [| reflexivity].
    cbn [fallbackModel]. destruct (r "fallbackModel") eqn:E; try reflexivity.
    exfalso. exact (H r s eq_refl E). }
  rewrite N. reflexivity.
Qed.

(** The theorem on an engine configured from an empty object, with the
    backend down. *)
Lemma unset_fallbackModel_uses_builtin_witness :
  model (fst (selectModel downHost (resolvePluginConfig (Some emptyRaw)) (Some noHints)
                (newEngine (resolvePluginConfig (Some emptyRaw)))))
  = "anthropic/claude-sonnet-4-5".
Proof.
  apply (unset_fallbackModel_uses_builtin downHost (Some emptyRaw) (Some noHints)
           (newEngine (resolvePluginConfig (Some emptyRaw)))).
  - intros r s E. injection E as <-. discriminate.
  - reflexivity.
  - reflexivity.
Defined.

(* ===================================================================== *)
(** * The service: start, stop and the health timer *)

Section LifecycleFacts.

Variable host : Host.
Variable generate : nat -> FetchOutcome unit.
Variable config : PluginConfig.

Lemma filter_fresh_handle (l : list nat) (n : nat) :
  (forall h, In h l -> h < n) ->
  filter (fun h' => negb (Nat.eqb h' n)) l = l.
Proof.
  induction l as [| a l IH]; intro H; [reflexivity |].
  cbn [filter]. destruct (Nat.eqb_spec a n) as [E | N].
  - pose proof (H a (or_introl eq_refl)). lia.
  - cbn [negb]. f_equal. apply IH. intros h Hh. apply H. right. exact Hh.
Qed.

Lemma filter_keeps_other (l : list nat) (n h : nat) :
  h <> n -> In h l -> In h (filter (fun h' => negb (Nat.eqb h' n)) l).
Proof.
  intros N I. apply filter_In. split; [exact I |].
  destruct (Nat.eqb_spec h n); [contradiction | reflexivity].
Qed.

(** [start], with the refreshed engine named. *)
Lemma start_unfold (s : Service) :
  start host generate config s
  = let m1 := snd (refreshHealth host config (engine s)) in
    if preloadOnStart config && pulled (primaryStatus (state m1))
    then {| engine := {| health := health m1; state := state m1;
                         tick := S (tick m1); trace := trace m1 |};
            healthInterval := Some (nextHandle s);
            intervals := nextHandle s :: intervals s;
            nextHandle := S (nextHandle s);
            generated :=
              warmRequest (primaryModel config) (keepAliveMinutes config)
              :: generated s |}
    else {| engine := m1;
            healthInterval := Some (nextHandle s);
            intervals := nextHandle s :: intervals s;
            nextHandle := S (nextHandle s);
            generated := generated s |}.
Proof. reflexivity. Qed.

(** What [start] does to the timer fields, whatever it does besides. *)
Lemma start_timer (s : Service) :
  healthInterval (start host generate config s) = Some (nextHandle s) /\
  intervals (start host generate config s) = nextHandle s :: intervals s /\
  nextHandle (start host generate config s) = S (nextHandle s).
Proof.
  unfold start. cbv zeta.
  destruct (preloadOnStart config && _); repeat split.
Qed.

End LifecycleFacts.

(** X16. [stop] clears the router's timer handle and takes it out of the
    interval table, leaving the engine alone; a second [stop] changes
    nothing, nor does a [stop] before any [start]. *)
Theorem stop_idempotent (s : Service) :
  stop (stop s) = stop s /\
  healthInterval (stop s) = None /\
  engine (stop s) = engine s /\
  match healthInterval s with
  | None => stop s = s
  | Some h => ~ In h (intervals (stop s))
  end.
Proof.
  unfold stop. destruct (healthInterval s) as [h |] eqn:E.
  - cbn [healthInterval engine intervals]. repeat split.
    intro I. apply filter_In in I. destruct I as [_ I].
    rewrite Nat.eqb_refl in I. discriminate I.
  - rewrite E. repeat split; assumption.
Qed.

(** X17. On a service whose interval table holds only handles already
    handed out, [start] followed by [stop] leaves the table as it was and
    no handle in the router: the timer [start] creates is the one [stop]
    cancels, and its callback does not run any more. *)
Theorem start_then_stop_cancels_the_timer
  (host : Host) (generate : nat -> FetchOutcome unit) (config : PluginConfig)
  (s : Service) :
  handlesIssued s ->
  let s' := stop (start host generate config s) in
  intervals s' = intervals s /\
  healthInterval s' = None /\
  fire host config (nextHandle s) s' = s'.
Proof.
  intros W s'.
  assert (A : intervals s' = intervals s /\ healthInterval s' = None).
  { unfold s', stop.
    destruct (start_timer host generate config s) as (H & I & _).
    rewrite H. cbn [intervals healthInterval]. rewrite I. cbn [filter].
    rewrite Nat.eqb_refl. cbn [negb].
    split; [apply filter_fresh_handle, W | reflexivity]. }
  destruct A as (I & N). split; [exact I |]. split; [exact N |].
  unfold fire. rewrite I.
  destruct (existsb (Nat.eqb (nextHandle s)) (intervals s)) eqn:X; [| reflexivity].
  apply existsb_exists in X. destruct X as (h & Hh & E).
  apply Nat.eqb_eq in E. subst h. pose proof (W _ Hh). lia.
Qed.

(** The theorem on a new service: no interval is left. *)
Lemma start_then_stop_cancels_the_timer_witness :
  let s' := stop (start upHost generateOk DEFAULTS (newService DEFAULTS)) in
  intervals s' = [] /\
  healthInterval s' = None /\
  fire upHost DEFAULTS 0 s' = s'.
Proof.
  apply (start_then_stop_cancels_the_timer upHost generateOk DEFAULTS
           (newService DEFAULTS)).
  intros h [].
Defined.

(** X18. [start] on a router that is already started overwrites its
    handle without cancelling it: after the second [start] and any number
    of [stop]s the first interval is still in the table, and when it
    elapses it still runs [refreshHealth]. *)
Theorem second_start_leaks_the_first_timer
  (host : Host) (generate : nat -> FetchOutcome unit) (config : PluginConfig)
  (s : Service) (h : nat) :
  healthInterval s = Some h ->
  In h (intervals s) ->
  handlesIssued s ->
  let s' := stop (start host generate config s) in
  In h (intervals s') /\
  stop s' = s' /\
  refreshes (trace (engine (fire host config h s')))
  = S (refreshes (trace (engine s'))).
Proof.
  intros E I W s'.
  assert (A : intervals s' = intervals s /\ healthInterval s' = None).
  { unfold s', stop.
    destruct (start_timer host generate config s) as (H & J & _).
    rewrite H. cbn [intervals healthInterval]. rewrite J. cbn [filter].
    rewrite Nat.eqb_refl. cbn [negb].
    split; [apply filter_fresh_handle, W | reflexivity]. }
  destruct A as (T & N).
  assert (I' : In h (intervals s')) by (rewrite T; exact I).
  split; [exact I' |]. split.
  - unfold stop. rewrite N. reflexivity.
  - unfold fire.
    assert (X : existsb (Nat.eqb h) (intervals s') = true).
    { apply existsb_exists. exists h. split; [exact I' | apply Nat.eqb_refl]. }
    rewrite X. unfold onEngine. cbn [snd engine].
    apply refreshHealth_refreshes.
Qed.

(** The theorem on a service that is running: started once already. *)
Lemma second_start_leaks_the_first_timer_witness :
  let s' := stop (start upHost generateOk DEFAULTS runningService) in
  In 0 (intervals s') /\
  stop s' = s' /\
  refreshes (trace (engine (fire upHost DEFAULTS 0 s')))
  = S (refreshes (trace (engine s'))).
Proof.
  apply (second_start_leaks_the_first_timer upHost generateOk DEFAULTS runningService 0).
  - reflexivity.
  - left. reflexivity.
  - intros h [<- | []]. cbn [runningService nextHandle]. lia.
Defined.

(** X19. [start] runs [refreshHealth] once and then posts one warm-up,
    for the primary model with the configured keep-alive, exactly when
    [preloadOnStart] is set and the refreshed status has the primary model
    pulled; it posts nothing else, counts no decision, and ends the same
    whether the warm-up succeeds or fails. *)
Theorem start_preloads_pulled_primary
  (host : Host) (generate generate' : nat -> FetchOutcome unit)
  (config : PluginConfig) (s : Service) :
  let s1 := start host generate config s in
  let st := state (engine s1) in
  generated s1
  = ((if preloadOnStart config && pulled (primaryStatus st)
      then [warmRequest (primaryModel config) (keepAliveMinutes config)]
      else []) ++ generated s)%list /\
  refreshes (trace (engine s1)) = S (refreshes (trace (engine s))) /\
  sameCounters (state (engine s)) st /\
  lastDecision st = lastDecision (state (engine s)) /\
  inSync config (engine s1) /\
  start host generate' config s = s1.
Proof.
  pose proof (refreshHealth_sameCounters host config (engine s)) as C.
  pose proof (refreshHealth_lastDecision host config (engine s)) as L.
  pose proof (refreshHealth_refreshes host config (engine s)) as R.
  pose proof (refreshHealth_inSync host config (engine s)) as Y.
  cbv zeta. rewrite !start_unfold. cbv zeta.
  generalize dependent (snd (refreshHealth host config (engine s))). intros m1 C L R Y.
  destruct (preloadOnStart config && pulled (primaryStatus (state m1))) eqn:P;
    cbn [engine generated state trace]; rewrite ?P.
  - split; [reflexivity |]. split; [exact R |]. split; [exact C |].
    split; [exact L |]. split; [exact Y | reflexivity].
  - split; [reflexivity |]. split; [exact R |]. split; [exact C |].
    split; [exact L |]. split; [exact Y | reflexivity].
Qed.

(* ===================================================================== *)
(** * The hooks and the refresh method *)

Lemma stripOllamaPrefix_prefixed (name : string) :
  stripOllamaPrefix ("ollama/" ++ name) = name.
Proof. reflexivity. Qed.

(** X20. The model string of every primary or sidecar decision made
    without forced model is recognised by the [agent_end] hook: stripped
    of its prefix it is the configured primary or sidecar name, and that
    is the model whose keep-alive the hook refreshes. *)
Theorem agentEnd_recognises_routed_models
  (host : Host) (config : PluginConfig) (context : option Context) (m : Machine) :
  forced context = None ->
  let d := fst (selectModel host config context m) in
  source d <> fallback ->
  agentEndTarget config (Some (model d))
  = Some (match source d with
          | sidecar => sidecarModel config
          | _ => primaryModel config
          end).
Proof.
  intros F d S. unfold d in *.
  rewrite (routed_model host config context m F).
  destruct (source (fst (selectModel host config context m)));
    [| | contradiction S; reflexivity];
    unfold agentEndTarget; cbn [truthy append negb];
    fold (append "ollama/" (primaryModel config));
    fold (append "ollama/" (sidecarModel config));
    rewrite stripOllamaPrefix_prefixed, ?String.eqb_refl, ?orb_true_r; reflexivity.
Qed.

(** The theorem on a warm engine, whose decision is the primary model. *)
Lemma agentEnd_recognises_routed_models_witness :
  agentEndTarget DEFAULTS
    (Some (model (fst (selectModel upHost DEFAULTS (Some noHints) warmEngine))))
  = Some "deepseek-coder-v2:16b".
Proof.
  apply (agentEnd_recognises_routed_models upHost DEFAULTS (Some noHints) warmEngine).
  - reflexivity.
  - discriminate.
Defined.

(** X21. The [agent_end] hook either does nothing at all, or posts one
    warm-up with the configured keep-alive for a model that is the
    configured primary or sidecar name; it never warms another model and
    never touches the router state or the cached snapshot. *)
Theorem agentEnd_warms_only_configured_models
  (generate : nat -> FetchOutcome unit) (config : PluginConfig)
  (eventModel : option string) (s : Service) :
  let s' := agentEndHook generate config eventModel s in
  s' = s \/
  exists name,
    (name = primaryModel config \/ name = sidecarModel config) /\
    generated s' = warmRequest name (keepAliveMinutes config) :: generated s /\
    state (engine s') = state (engine s) /\
    health (engine s') = health (engine s) /\
    intervals s' = intervals s.
Proof.
  cbv zeta. unfold agentEndHook, agentEndTarget.
  destruct eventModel as [modelUsed |]; [| left; reflexivity].
  destruct (negb (truthy modelUsed)); [left; reflexivity |].
  cbv zeta.
  destruct (String.eqb_spec (stripOllamaPrefix modelUsed) (primaryModel config))
    as [E1 | N1]; cbn [orb].
  - right. exists (stripOllamaPrefix modelUsed). repeat split. left. exact E1.
  - destruct (String.eqb_spec (stripOllamaPrefix modelUsed) (sidecarModel config))
      as [E2 | N2].
    + right. exists (stripOllamaPrefix modelUsed). repeat split. right. exact E2.
    + left. reflexivity.
Qed.

(** X22. With [autoRoute] off the [before_agent_start] hook returns
    nothing and leaves the engine untouched. With it on, the hook makes
    one [selectModel] call that is never forced, whatever model the event
    names: the decision is counted once under its source, becomes
    [lastDecision], and its model and the tag of its source are what the
    hook returns. *)
Theorem beforeAgentStart_routes_and_counts
  (host : Host) (config : PluginConfig) (event : BeforeAgentStartEvent) (m : Machine) :
  let r := beforeAgentStartHook host config event m in
  let d := fst (selectModel host config (Some (hookContext event)) m) in
  if autoRoute config
  then fst r = Some {| res_model := Some (model d);
                       prependContext :=
                         Some ("[model-optimizer: " ++ model d ++ " ("
                               ++ sourceTag (source d) ++ ")]") |} /\
       lastDecision (state (snd r)) = Some d /\
       counted (source d) (state m) (state (snd r)) /\
       model d = match source d with
                 | primary => "ollama/" ++ primaryModel config
                 | sidecar => "ollama/" ++ sidecarModel config
                 | fallback =>
                     nullish (fallbackModel config) "anthropic/claude-sonnet-4-5"
                 end
  else r = (None, m).
Proof.
  cbv zeta. unfold beforeAgentStartHook.
  destruct (autoRoute config); cbn [negb]; [| reflexivity].
  unfold bind, ret. cbn [fst snd].
  pose proof (selectModel_counters host config (Some (hookContext event)) m) as C.
  cbv zeta in C. cbn [forced hookContext forceModel] in C.
  split; [reflexivity |]. split; [| split; [exact C |]].
  - rewrite (selectModel_unforced host config (Some (hookContext event)) m eq_refl).
    apply selectRouted_counted.
  - apply routed_model. reflexivity.
Qed.

Lemma checkHealth_reachable (host : Host) (m : Machine) :
  reachable (health (snd (checkHealth host m))) = backendAnswers host (tick m).
Proof.
  rewrite checkHealth_health. unfold backendAnswers, succeeds.
  destruct (fetchJson_result (httpVersion host (tick m))); [reflexivity |].
  destruct (fetchJson_result (httpTags host (S (tick m)))); [reflexivity |].
  destruct (fetchJson_result (httpPs host (S (S (tick m))))); reflexivity.
Qed.

Lemma refreshHealth_reachable (host : Host) (config : PluginConfig) (m : Machine) :
  ollamaReachable (state (snd (refreshHealth host config m)))
  = backendAnswers host (tick m).
Proof.
  destruct (refreshHealth_inSync host config m) as (R & _).
  rewrite R, (refreshHealth_health host config m).
  apply (checkHealth_reachable host
           {| health := health m; state := state m; tick := tick m;
              trace := EvRefreshHealth :: trace m |}).
Qed.

(** X23. The refresh method always replies [success = true]; whether the
    backend answered is in [ollamaReachable], which is true exactly when
    the three requests of the health check succeeded, and the pulled
    flags are those of the snapshot the check left in the cache. The
    method counts no decision. *)
Theorem refreshMethod_reply (host : Host) (config : PluginConfig) (m : Machine) :
  let r := refreshMethod host config m in
  success (fst r) = true /\
  reply_ollamaReachable (fst r) = backendAnswers host (tick m) /\
  reply_primaryPulled (fst r) = fst (isModelPulled (primaryModel config) (snd r)) /\
  reply_sidecarPulled (fst r) = fst (isModelPulled (sidecarModel config) (snd r)) /\
  reply_lastHealthCheck (fst r) = lastHealthCheck (state (snd r)) /\
  sameCounters (state m) (state (snd r)).
Proof.
  cbv zeta. unfold refreshMethod, isModelPulled, bind, getState, getHealth, ret.
  cbn [fst snd success reply_ollamaReachable reply_primaryPulled reply_sidecarPulled
       reply_lastHealthCheck].
  destruct (refreshHealth_inSync host config m) as (_ & P & Sd).
  split; [reflexivity |].
  split; [apply refreshHealth_reachable |].
  rewrite P, Sd. unfold modelStatusOf. cbn [pulled]. rewrite !existsb_find.
  split; [reflexivity |]. split; [reflexivity |]. split; [reflexivity |].
  apply refreshHealth_sameCounters.
Qed.

(* ===================================================================== *)
(** * Reading the output of nvidia-smi *)

Lemma firstLine_app_lineFeed (line rest : string) :
  firstLine (line ++ String lineFeed rest) = firstLine line.
Proof.
  induction line as [| c line IH]; cbn [append firstLine].
  - rewrite Ascii.eqb_refl. reflexivity.
  - destruct (Ascii.eqb c lineFeed); [reflexivity | rewrite IH; reflexivity].
Qed.

(** X24. Both readers look at the first line of the tool's output only:
    whatever follows the first line feed (the lines of further GPUs)
    changes neither the utilization nor the VRAM reading. *)
Theorem nvidia_readers_use_first_line_only (line rest : string) :
  readGpuUtilization (Some (line ++ String lineFeed rest))
  = readGpuUtilization (Some line) /\
  readVramUsage (Some (line ++ String lineFeed rest)) = readVramUsage (Some line).
Proof.
  unfold readGpuUtilization, readVramUsage.
  rewrite firstLine_app_lineFeed.
  destruct line as [| c line]; [split; reflexivity |].
  cbn [append truthy negb]. split; reflexivity.
Qed.















Lemma splitOn_without_separator (sep : ascii) (s : string) :
  occurs sep s = false -> splitOn sep s = [s].
Proof.
  induction s as [| c s IH]; [reflexivity |].
  cbn [occurs splitOn]. intro H. apply orb_false_elim in H. destruct H as [H1 H2].
  rewrite H1, (IH H2). reflexivity.
Qed.

(** X26. When the first line of the tool's output holds no comma,
    [getNvidiaVramUsage] has a single field to read and returns no
    reading, even if that field is a number. *)
Theorem line_without_comma_gives_no_vram_reading (o : string) :
  occurs ","%char (firstLine o) = false ->
  readVramUsage (Some o) = None.
Proof.
  intro H. unfold readVramUsage.
  destruct (negb (truthy o)); [reflexivity |].
  rewrite (splitOn_without_separator _ _ H). cbn [map].
  destruct (parseInt10 (trim (firstLine o))); reflexivity.
Qed.

(** The theorem on an output that is one number on one line. *)
Lemma line_without_comma_gives_no_vram_reading_witness :
  readVramUsage (Some "4000") = None.
Proof.
  apply (line_without_comma_gives_no_vram_reading "4000"). reflexivity.
Defined.
